(** * Competitive pricing analysis: job runner, scraper and extractor

    A shallow embedding of [src/app.py], [src/scraper.py] and
    [src/ai_extractor.py].  Python objects that the code mutates are passed
    explicitly; everything outside the process (HTTP, the language model,
    the clock, the disk, library parsers) is an interface, [World], whose
    operations thread an abstract state.  Strings are [string]s of 8-bit
    characters, the code points below 256: white space ([strip], [\s]) is
    Python's on that range; letter case ([lower], [upper]) is modelled on
    the ASCII letters, which are all that the code compares against. *)

From Stdlib Require Import ZArith Lia Bool Ascii String.
From stdpp Require Import base strings list gmap pretty.

(** ** Python text operations *)

Module PyStr.

Definition nat_in (lo hi : nat) (c : ascii) : bool :=
  (lo <=? nat_of_ascii c)%nat && (nat_of_ascii c <=? hi)%nat.

(** [c.isdigit()] / the class [\d]. *)
Definition is_digit (c : ascii) : bool := nat_in 48 57 c.

Definition is_upper (c : ascii) : bool := nat_in 65 90 c.

Definition is_lower (c : ascii) : bool := nat_in 97 122 c.

(** The class [[A-Z0-9]]. *)
Definition is_upper_alnum (c : ascii) : bool := is_upper c || is_digit c.

(** The class [[\d.]]. *)
Definition is_digit_or_dot (c : ascii) : bool := is_digit c || Ascii.eqb c ".".

(** [c.isspace()] / the class [\s] on the code points below 256: TAB..CR,
    FS..US, the space, NEL (U+0085) and the no-break space (U+00A0). *)
Definition is_space (c : ascii) : bool :=
  nat_in 9 13 c || nat_in 28 32 c || nat_in 133 133 c || nat_in 160 160 c.

Definition lower_char (c : ascii) : ascii :=
  if is_upper c then ascii_of_nat (nat_of_ascii c + 32) else c.

Definition upper_char (c : ascii) : ascii :=
  if is_lower c then ascii_of_nat (nat_of_ascii c - 32) else c.

Fixpoint map_chars (f : ascii -> ascii) (s : string) : string :=
  match s with
  | EmptyString => EmptyString
  | String c s' => String (f c) (map_chars f s')
  end.

(** [s.lower()] and [s.upper()]. *)
Definition lower (s : string) : string := map_chars lower_char s.
Definition upper (s : string) : string := map_chars upper_char s.

(** [re.sub('[^CLASS]', '', s)]: keep the characters of the class. *)
Fixpoint keep (p : ascii -> bool) (s : string) : string :=
  match s with
  | EmptyString => EmptyString
  | String c s' => if p c then String c (keep p s') else keep p s'
  end.

Fixpoint all_chars (p : ascii -> bool) (s : string) : bool :=
  match s with
  | EmptyString => true
  | String c s' => p c && all_chars p s'
  end.

(** [sub in s]. *)
Fixpoint contains (sub s : string) : bool :=
  String.prefix sub s ||
  match s with
  | EmptyString => false
  | String _ s' => contains sub s'
  end.

(** [any(term in s for term in terms)]. *)
Definition contains_any (terms : list string) (s : string) : bool :=
  existsb (fun term => contains term s) terms.

Fixpoint lstrip (s : string) : string :=
  match s with
  | EmptyString => EmptyString
  | String c s' => if is_space c then lstrip s' else s
  end.

Fixpoint rstrip (s : string) : string :=
  match s with
  | EmptyString => EmptyString
  | String c s' =>
      match rstrip s' with
      | EmptyString => if is_space c then EmptyString else String c EmptyString
      | r => String c r
      end
  end.

(** [s.strip()]. *)
Definition strip (s : string) : string := rstrip (lstrip s).

(** [s[:n]]. *)
Fixpoint slice_to (n : nat) (s : string) : string :=
  match n, s with
  | S n', String c s' => String c (slice_to n' s')
  | _, _ => EmptyString
  end.

(** The regular expressions of this code base that [re.search] runs are
    all sequences of single-character classes of a fixed length; an
    [atom] is one such class. *)
Inductive atom : Type :=
  | Lit (c : ascii)
  | Digit
  | UpperAlnum.

Definition atom_ok (a : atom) (c : ascii) : bool :=
  match a with
  | Lit c' => Ascii.eqb c' c
  | Digit => is_digit c
  | UpperAlnum => is_upper_alnum c
  end.

Fixpoint lits (s : string) : list atom :=
  match s with
  | EmptyString => []
  | String c s' => Lit c :: lits s'
  end.

(** The text matched by the pattern at the very start of [s], if any. *)
Fixpoint match_here (p : list atom) (s : string) : option string :=
  match p with
  | [] => Some EmptyString
  | a :: p' =>
      match s with
      | EmptyString => None
      | String c s' =>
          if atom_ok a c
          then match match_here p' s' with
               | Some m => Some (String c m)
               | None => None
               end
          else None
      end
  end.

(** [re.search(p, s)]: the leftmost match, as [m.group(0)]. *)
Fixpoint re_search (p : list atom) (s : string) : option string :=
  match match_here p s with
  | Some m => Some m
  | None =>
      match s with
      | EmptyString => None
      | String _ s' => re_search p s'
      end
  end.

(** [re.sub(r'^```json?\s*', '', s)]. *)
Definition strip_fence_open (s : string) : string :=
  if String.prefix "```jso" s
  then
    let rest := String.substring 6 (String.length s - 6) s in
    lstrip (match rest with
            | String "n" rest' => rest'
            | _ => rest
            end)
  else s.

Fixpoint drop_fence_end (s : string) : option string :=
  match s with
  | EmptyString => None
  | String c s' =>
      if String.eqb s "```" then Some EmptyString
      else match drop_fence_end s' with
           | Some r => Some (String c r)
           | None => None
           end
  end.

(** [re.sub(r'\s*```$', '', s)] on a text with no trailing white space. *)
Definition strip_fence_close (s : string) : string :=
  match drop_fence_end s with
  | Some r => rstrip r
  | None => s
  end.

End PyStr.

(** ** Exceptions and the outside world *)

(** A raised Python exception: [json.JSONDecodeError] is kept apart because
    [extract_vehicle_data] handles it in a clause of its own; every other
    subclass of [Exception] is [Exception msg], with [msg] its [str()]. *)
Inductive exn : Type :=
  | JSONDecodeError (msg : string)
  | Exception (msg : string).

(** [str(e)]. *)
Definition str_of_exn (e : exn) : string :=
  match e with
  | JSONDecodeError msg => msg
  | Exception msg => msg
  end.

(** The result of a call that may raise. *)
Inductive res (A : Type) : Type :=
  | Ok (a : A)
  | Raise (e : exn).
Arguments Ok {A} a.
Arguments Raise {A} e.

(** A value of a decoded JSON document, as far as this code observes it:
    of a value that is not a string only its truth value and its [str()]
    are ever used ([None], booleans, numbers, lists and nested objects). *)
Inductive pyvalue : Type :=
  | PyStr (s : string)
  | PyOther (truthy : bool) (repr : string).

(** What [json.loads] returns: a [dict], or any other value. *)
Inductive json_doc : Type :=
  | JsonObject (items : gmap string pyvalue)
  | JsonOther.

(** The [loc] elements of a fetched sitemap, in document order, each with
    its text ([None] for an element without text): those found under the
    sitemap namespace and those found without a namespace. *)
Record sitemap_doc : Type := {
  ns_locs : list (option string);
  plain_locs : list (option string)
}.

(** What [scrape_vdp] keeps of a fetched page: the selected HTML and
    [soup.title.string], which is [None] for a title with nested markup. *)
Record page : Type := {
  page_html : string;
  page_title_string : option string
}.

(** One row of an exported file. *)
Definition csv_row : Type := list string.

Class World (W : Type) : Type := {
  (** [int(os.getenv('VDP_LIMIT', 3))] *)
  VDP_LIMIT : Z;
  (** [urlparse(url).netloc] *)
  netloc : string -> res string;
  (** [requests.Session()] in [VehicleScraper.__init__] *)
  new_session : W -> W * res unit;
  (** [OpenAI(api_key=api_key)] in [AIVehicleExtractor.__init__] *)
  new_client : W -> string -> W * res unit;
  (** [session.get], [raise_for_status], [ET.fromstring] and [findall] *)
  get_sitemap : W -> string -> W * res sitemap_doc;
  (** [session.get], [raise_for_status] and the BeautifulSoup selection *)
  get_page : W -> string -> W * res page;
  (** [client.chat.completions.create] followed by
      [response.choices[0].message.content], for the prompt built from the
      URL, the page title and the (truncated) HTML *)
  chat_completion : W -> string -> option string -> string -> W * res (option string);
  (** [json.loads] *)
  json_loads : string -> res json_doc;
  (** Python floats: [float(s)] ([None] for [ValueError]), [x > 0] and
      the format [.2f] *)
  pyfloat : Type;
  float_of_str : string -> option pyfloat;
  float_pos : pyfloat -> bool;
  format_2f : pyfloat -> string;
  (** [datetime.now().strftime(fmt)] *)
  strftime_now : W -> string -> W * string;
  (** [time.sleep(seconds)] *)
  sleep : W -> nat -> W;
  (** [str(uuid.uuid4())] *)
  uuid4 : W -> W * string;
  (** [os.makedirs(path, exist_ok=True)] *)
  makedirs : W -> string -> W * res unit;
  (** whether [open(path, 'w')] succeeds *)
  open_w : W -> string -> W * res unit;
  (** [writer.writeheader()] and [writer.writerows(results)] on the file
      just opened at [path], for the lines they are to write: [None] when
      every line is written, [Some (kept, e)] when [e] is raised and the
      file is left holding [kept] *)
  write_lines : W -> string -> list csv_row -> W * option (list csv_row * exn)
}.

(** ** [scraper.py] *)

Section Scraper.
Context {W : Type} `{World W}.

(** [VehicleScraper.extract_competitor_name] *)
Definition extract_competitor_name (url : string) : res string :=
  match netloc url with
  | Raise e => Raise e
  | Ok domain =>
      if PyStr.contains "gunnnissan" domain then Ok "Gunn Nissan"
      else if PyStr.contains "ingrampark" domain then Ok "Ingram Park Nissan"
      else if PyStr.contains "nissanboerne" domain || PyStr.contains "boerne" domain
      then Ok "Nissan of Boerne"
      else if PyStr.contains "championnissan" domain
      then Ok "Champion Nissan (New Braunfels)"
      else Ok domain
  end.

Definition exclude_terms : list string :=
  ["specials"; "service"; "parts"; "about"; "contact";
   "hours"; "staff"; "blog"; "news"; "reviews"; "directions";
   "finance"; "trade"; "sitemap"; "search"; "inventory/new";
   "showroom"; "certified"; "used"; "pre-owned"].

Definition vdp_indicators : list (list PyStr.atom) :=
  [ repeat PyStr.Digit 17;
    PyStr.lits "detail";
    PyStr.lits "viewdetail";
    PyStr.lits "/auto/";
    PyStr.lits "/vehicle/";
    PyStr.lits "/inventory/new-" ++ repeat PyStr.Digit 4 ].

(** [VehicleScraper._is_new_nissan_vdp] *)
Definition _is_new_nissan_vdp (url : string) : bool :=
  let url_lower := PyStr.lower url in
  let has_new := PyStr.contains "new" url_lower || PyStr.contains "/n/" url_lower in
  let has_nissan := PyStr.contains "nissan" url_lower in
  let has_vin_or_detail :=
    existsb (fun pattern => bool_decide (is_Some (PyStr.re_search pattern url_lower)))
            vdp_indicators in
  let has_exclude := PyStr.contains_any exclude_terms url_lower in
  has_new && has_nissan && has_vin_or_detail && negb has_exclude.

(** The truth value of [self.vdp_limit]: [None] and [0] are false. *)
Definition limit_set (vdp_limit : option Z) : bool :=
  match vdp_limit with
  | None => false
  | Some k => negb (k =? 0)%Z
  end.

(** [len(vdp_urls) >= self.vdp_limit], evaluated only when the limit is set. *)
Definition limit_reached (vdp_limit : option Z) (vdp_urls : list string) : bool :=
  match vdp_limit with
  | None => false
  | Some k => (k <=? Z.of_nat (length vdp_urls))%Z
  end.

(** The filtering loop of [parse_sitemap], lines 68-78: [urls] are the
    elements still to visit, [vdp_urls] the list built so far. *)
Fixpoint collect_vdp_urls (vdp_limit : option Z) (urls : list (option string))
    (vdp_urls : list string) : list string :=
  match urls with
  | [] => vdp_urls
  | url_elem :: rest =>
      match url_elem with
      | Some url =>
          if negb (String.eqb url "") && _is_new_nissan_vdp url
          then
            let vdp_urls := vdp_urls ++ [url] in
            if limit_set vdp_limit && limit_reached vdp_limit vdp_urls
            then vdp_urls
            else collect_vdp_urls vdp_limit rest vdp_urls
          else collect_vdp_urls vdp_limit rest vdp_urls
      | None => collect_vdp_urls vdp_limit rest vdp_urls
      end
  end.

(** [root.findall('.//ns:loc', namespaces)], and [root.findall('.//loc')]
    when that is empty. *)
Definition loc_elements (doc : sitemap_doc) : list (option string) :=
  match ns_locs doc with
  | [] => plain_locs doc
  | urls => urls
  end.

(** [VehicleScraper.parse_sitemap], for a scraper built with [vdp_limit]. *)
Definition parse_sitemap (vdp_limit : option Z) (w : W) (sitemap_url : string)
    : W * res (list string) :=
  match get_sitemap w sitemap_url with
  | (w, Ok doc) => (w, Ok (collect_vdp_urls vdp_limit (loc_elements doc) []))
  | (w, Raise e) =>
      (w, Raise (Exception ("Failed to parse sitemap " +:+ sitemap_url +:+ ": "
                            +:+ str_of_exn e)))
  end.

(** The dictionary [scrape_vdp] returns. *)
Record vdp_data : Type := {
  vd_competitor : string;
  vd_url : string;
  vd_html_content : string;
  vd_page_title : option string
}.

(** [VehicleScraper.scrape_vdp] *)
Definition scrape_vdp (w : W) (url : string) : W * res vdp_data :=
  let wrap (e : exn) : res vdp_data :=
    Raise (Exception ("Failed to scrape VDP " +:+ url +:+ ": " +:+ str_of_exn e)) in
  match get_page w url with
  | (w, Raise e) => (w, wrap e)
  | (w, Ok pg) =>
      match extract_competitor_name url with
      | Raise e => (w, wrap e)
      | Ok competitor_name =>
          (w, Ok {| vd_competitor := competitor_name;
                    vd_url := url;
                    vd_html_content := page_html pg;
                    vd_page_title := page_title_string pg |})
      end
  end.

End Scraper.

(** ** [ai_extractor.py] *)

(** The dictionary [extract_vehicle_data] returns. *)
Record vehicle_data : Type := {
  v_vin : string;
  v_year : string;
  v_make : string;
  v_model : string;
  v_trim : string;
  v_msrp : string;
  v_sale_price : string
}.

Definition NOT_AVAILABLE : string := "Not Available".

(** The record of lines 106-114 and 152-160. *)
Definition default_vehicle_data : vehicle_data :=
  {| v_vin := NOT_AVAILABLE;
     v_year := NOT_AVAILABLE;
     v_make := "Nissan";
     v_model := NOT_AVAILABLE;
     v_trim := NOT_AVAILABLE;
     v_msrp := NOT_AVAILABLE;
     v_sale_price := NOT_AVAILABLE |}.

Section Extractor.
Context {W : Type} `{World W}.

(** [str(v)] *)
Definition py_str (v : pyvalue) : string :=
  match v with
  | PyStr s => s
  | PyOther _ repr => repr
  end.

(** The truth value of [v]. *)
Definition py_truthy (v : pyvalue) : bool :=
  match v with
  | PyStr s => negb (String.eqb s "")
  | PyOther truthy _ => truthy
  end.

(** A string method called on [v]: [AttributeError] unless [v] is a string. *)
Definition str_method (name : string) (f : string -> string) (v : pyvalue)
    : res string :=
  match v with
  | PyStr s => Ok (f s)
  | PyOther _ _ =>
      Raise (Exception ("object has no attribute '" +:+ name +:+ "'"))
  end.

(** [data.get(key, default)] *)
Definition dict_get (data : gmap string pyvalue) (key : string) (dflt : string)
    : pyvalue :=
  default (PyStr dflt) (data !! key).

(** [AIVehicleExtractor._clean_vin] *)
Definition _clean_vin (vin : pyvalue) : res string :=
  match str_method "upper" PyStr.upper vin with
  | Raise e => Raise e
  | Ok up =>
      let vin := PyStr.keep PyStr.is_upper_alnum up in
      if (String.length vin =? 17)%nat then Ok vin else Ok NOT_AVAILABLE
  end.

Definition year_pattern : list PyStr.atom :=
  PyStr.lits "20" ++ [PyStr.Digit; PyStr.Digit].

(** [AIVehicleExtractor._clean_year] *)
Definition _clean_year (year : pyvalue) : string :=
  match PyStr.re_search year_pattern (py_str year) with
  | Some year_match => year_match
  | None => NOT_AVAILABLE
  end.

(** [s.isdigit()] *)
Definition isdigit (s : string) : bool :=
  negb (String.eqb s "") && PyStr.all_chars PyStr.is_digit s.

(** [AIVehicleExtractor._clean_price] *)
Definition _clean_price (price : pyvalue) : res string :=
  if negb (py_truthy price) then Ok NOT_AVAILABLE
  else
    match str_method "lower" PyStr.lower price with
    | Raise e => Raise e
    | Ok low =>
        if bool_decide (low ∈ ["not available"; "n/a"; "null"; "none"])
        then Ok NOT_AVAILABLE
        else
          let price_str := PyStr.keep PyStr.is_digit_or_dot (py_str price) in
          if negb (String.eqb price_str "")
             && isdigit (PyStr.keep (fun c => negb (Ascii.eqb c ".")) price_str)
          then
            match float_of_str price_str with
            | Some price_float =>
                if float_pos price_float then Ok (format_2f price_float)
                else Ok NOT_AVAILABLE
            | None => Ok NOT_AVAILABLE
            end
          else Ok NOT_AVAILABLE
    end.

(** [AIVehicleExtractor._fallback_extraction] *)
Definition _fallback_extraction (content : string) : vehicle_data :=
  let data := default_vehicle_data in
  let data :=
    match PyStr.re_search (repeat PyStr.UpperAlnum 17) content with
    | Some vin_match =>
        {| v_vin := vin_match; v_year := v_year data; v_make := v_make data;
           v_model := v_model data; v_trim := v_trim data;
           v_msrp := v_msrp data; v_sale_price := v_sale_price data |}
    | None => data
    end in
  match PyStr.re_search year_pattern content with
  | Some year_match =>
      {| v_vin := v_vin data; v_year := year_match; v_make := v_make data;
         v_model := v_model data; v_trim := v_trim data;
         v_msrp := v_msrp data; v_sale_price := v_sale_price data |}
  | None => data
  end.

(** Lines 88-96: the dictionary [cleaned_data], built from the decoded
    document; calling [get] on a document that is not a [dict] raises. *)
Definition clean_data (doc : json_doc) : res vehicle_data :=
  match doc with
  | JsonOther => Raise (Exception "object has no attribute 'get'")
  | JsonObject data =>
      match _clean_vin (dict_get data "vin" "") with
      | Raise e => Raise e
      | Ok vin =>
      let year := _clean_year (dict_get data "year" "") in
      match str_method "strip" PyStr.strip (dict_get data "make" "Nissan") with
      | Raise e => Raise e
      | Ok make =>
      match str_method "strip" PyStr.strip (dict_get data "model" NOT_AVAILABLE) with
      | Raise e => Raise e
      | Ok model =>
      match str_method "strip" PyStr.strip (dict_get data "trim" NOT_AVAILABLE) with
      | Raise e => Raise e
      | Ok trim =>
      match _clean_price (dict_get data "msrp" "") with
      | Raise e => Raise e
      | Ok msrp =>
      match _clean_price (dict_get data "sale_price" "") with
      | Raise e => Raise e
      | Ok sale_price =>
          Ok {| v_vin := vin; v_year := year; v_make := make; v_model := model;
                v_trim := trim; v_msrp := msrp; v_sale_price := sale_price |}
      end end end end end end
  end.

(** Lines 33-35: the HTML that goes into the prompt. *)
Definition truncate_html (html_content : string) : string :=
  if (15000 <? N.of_nat (String.length html_content))%N
  then PyStr.slice_to (N.to_nat 15000) html_content +:+ "
...[truncated]"
  else html_content.

(** The [try] block of [extract_vehicle_data], lines 67-98.  The second
    component is the local [content], [None] while it is not yet bound. *)
Definition extract_try (w : W) (html_content url : string)
    (page_title : option string) : W * option string * res vehicle_data :=
  match chat_completion w url page_title html_content with
  | (w, Raise e) => (w, None, Raise e)
  | (w, Ok None) => (w, None, Raise (Exception "object has no attribute 'strip'"))
  | (w, Ok (Some message_content)) =>
      let content := PyStr.strip message_content in
      let content := PyStr.strip_fence_open content in
      let content := PyStr.strip_fence_close content in
      match json_loads content with
      | Raise e => (w, Some content, Raise e)
      | Ok data => (w, Some content, clean_data data)
      end
  end.

(** [AIVehicleExtractor.extract_vehicle_data].  The handler of
    [json.JSONDecodeError] reads [content]; when the exception comes from a
    statement before [content] is bound, that read raises in turn and
    nothing catches it. *)
Definition extract_vehicle_data (w : W) (html_content url : string)
    (page_title : option string) : W * res vehicle_data :=
  let html_content := truncate_html html_content in
  match extract_try w html_content url page_title with
  | (w, _, Ok cleaned_data) => (w, Ok cleaned_data)
  | (w, content, Raise (JSONDecodeError _)) =>
      match content with
      | Some content => (w, Ok (_fallback_extraction content))
      | None => (w, Raise (Exception "local variable 'content' is not bound"))
      end
  | (w, _, Raise (Exception _)) => (w, Ok default_vehicle_data)
  end.

End Extractor.

(** ** [app.py] *)

(** The dictionary [AnalysisJob.progress]. *)
Record progress_dict : Type := {
  current_competitor : string;
  total_competitors : nat;
  completed_competitors : nat;
  current_vdp : nat;
  total_vdps : nat;
  processed_vdps : nat
}.

(** The keyword arguments of one [update_progress] call: [None] for a key
    that is not passed. *)
Record progress_kwargs : Type := {
  kw_current_competitor : option string;
  kw_completed_competitors : option nat;
  kw_current_vdp : option nat;
  kw_total_vdps : option nat;
  kw_processed_vdps : option nat
}.

Definition no_kwargs : progress_kwargs :=
  {| kw_current_competitor := None; kw_completed_competitors := None;
     kw_current_vdp := None; kw_total_vdps := None; kw_processed_vdps := None |}.

(** [progress.update(kwargs)] *)
Definition dict_update (p : progress_dict) (kw : progress_kwargs) : progress_dict :=
  {| current_competitor := default (current_competitor p) (kw_current_competitor kw);
     total_competitors := total_competitors p;
     completed_competitors :=
       default (completed_competitors p) (kw_completed_competitors kw);
     current_vdp := default (current_vdp p) (kw_current_vdp kw);
     total_vdps := default (total_vdps p) (kw_total_vdps kw);
     processed_vdps := default (processed_vdps p) (kw_processed_vdps kw) |}.

(** The dictionary [result] of lines 107-118. *)
Record result_row : Type := {
  r_competitor : string;
  r_url : string;
  r_vin : string;
  r_year : string;
  r_make : string;
  r_model : string;
  r_trim : string;
  r_msrp : string;
  r_sale_price : string;
  r_date_scraped : string
}.

(** [class AnalysisJob] *)
Record AnalysisJob : Type := {
  job_id : string;
  sitemap_urls : list string;
  openai_api_key : string;
  status : string;
  progress : progress_dict;
  results : list result_row;
  errors : list string;
  completed : bool;
  csv_path : option string
}.

(** [AnalysisJob.__init__] *)
Definition AnalysisJob_init (job_id : string) (sitemap_urls : list string)
    (openai_api_key : string) : AnalysisJob :=
  {| job_id := job_id;
     sitemap_urls := sitemap_urls;
     openai_api_key := openai_api_key;
     status := "starting";
     progress := {| current_competitor := "";
                    total_competitors := length sitemap_urls;
                    completed_competitors := 0;
                    current_vdp := 0;
                    total_vdps := 0;
                    processed_vdps := 0 |};
     results := [];
     errors := [];
     completed := false;
     csv_path := None |}.

(** [job.status = s] *)
Definition set_status (s : string) (job : AnalysisJob) : AnalysisJob :=
  {| job_id := job_id job; sitemap_urls := sitemap_urls job;
     openai_api_key := openai_api_key job; status := s;
     progress := progress job; results := results job; errors := errors job;
     completed := completed job; csv_path := csv_path job |}.

(** [AnalysisJob.update_progress] *)
Definition update_progress (kw : progress_kwargs) (job : AnalysisJob) : AnalysisJob :=
  {| job_id := job_id job; sitemap_urls := sitemap_urls job;
     openai_api_key := openai_api_key job; status := status job;
     progress := dict_update (progress job) kw;
     results := results job; errors := errors job;
     completed := completed job; csv_path := csv_path job |}.

(** [AnalysisJob.add_result] *)
Definition add_result (result : result_row) (job : AnalysisJob) : AnalysisJob :=
  {| job_id := job_id job; sitemap_urls := sitemap_urls job;
     openai_api_key := openai_api_key job; status := status job;
     progress := progress job; results := results job ++ [result];
     errors := errors job; completed := completed job; csv_path := csv_path job |}.

(** [AnalysisJob.add_error] *)
Definition add_error (error : string) (job : AnalysisJob) : AnalysisJob :=
  {| job_id := job_id job; sitemap_urls := sitemap_urls job;
     openai_api_key := openai_api_key job; status := status job;
     progress := progress job; results := results job;
     errors := errors job ++ [error];
     completed := completed job; csv_path := csv_path job |}.

(** [job.csv_path = p] *)
Definition set_csv_path (p : string) (job : AnalysisJob) : AnalysisJob :=
  {| job_id := job_id job; sitemap_urls := sitemap_urls job;
     openai_api_key := openai_api_key job; status := status job;
     progress := progress job; results := results job; errors := errors job;
     completed := completed job; csv_path := Some p |}.

(** [job.completed = True] *)
Definition set_completed (job : AnalysisJob) : AnalysisJob :=
  {| job_id := job_id job; sitemap_urls := sitemap_urls job;
     openai_api_key := openai_api_key job; status := status job;
     progress := progress job; results := results job; errors := errors job;
     completed := true; csv_path := csv_path job |}.

Definition fieldnames : csv_row :=
  ["competitor"; "url"; "vin"; "year"; "make"; "model"; "trim"; "msrp";
   "sale_price"; "date_scraped"].

(** The line [csv.DictWriter] writes for one result. *)
Definition row_of_result (r : result_row) : csv_row :=
  [r_competitor r; r_url r; r_vin r; r_year r; r_make r; r_model r; r_trim r;
   r_msrp r; r_sale_price r; r_date_scraped r].

(** The message of the handler of lines 126-129. *)
Definition vdp_error_msg (vdp_url : string) (e : exn) : string :=
  "Error processing " +:+ vdp_url +:+ ": " +:+ str_of_exn e.

(** The message of the handler of lines 133-136. *)
Definition sitemap_error_msg (sitemap_url : string) (e : exn) : string :=
  "Error processing sitemap " +:+ sitemap_url +:+ ": " +:+ str_of_exn e.

(** The files written so far: path to lines. *)
Abbreviation files := (gmap string (list csv_row)).

(** The global [analysis_results]. *)
Abbreviation registry := (gmap string AnalysisJob).

Section App.
Context {W : Type} `{World W}.

(** [generate_csv].  Opening the file for writing creates it empty (or
    truncates it); the header and the rows are written only for a
    non-empty [results], and writing them can fail too, after the file was
    created or truncated. *)
Definition generate_csv (fs : files) (w : W) (job_id : string)
    (results : list result_row) : files * W * res string :=
  match makedirs w "exports" with
  | (w, Raise e) => (fs, w, Raise e)
  | (w, Ok _) =>
      let csv_path := "exports/" +:+ job_id +:+ ".csv" in
      match open_w w csv_path with
      | (w, Raise e) => (fs, w, Raise e)
      | (w, Ok _) =>
          let fs := <[csv_path := []]> fs in
          match results with
          | [] => (fs, w, Ok csv_path)
          | _ =>
              let lines := fieldnames :: map row_of_result results in
              match write_lines w csv_path lines with
              | (w, None) => (<[csv_path := lines]> fs, w, Ok csv_path)
              | (w, Some (kept, e)) => (<[csv_path := kept]> fs, w, Raise e)
              end
          end
      end
  end.

(** Lines 96-118 of the [try] block for one page: fetch, extract and
    combine into the dictionary [result]. *)
Definition vdp_fetch (w : W) (vdp_url : string) : W * res result_row :=
  match scrape_vdp w vdp_url with
  | (w, Raise e) => (w, Raise e)
  | (w, Ok vdp) =>
      match extract_vehicle_data w (vd_html_content vdp) (vd_url vdp)
                                 (vd_page_title vdp) with
      | (w, Raise e) => (w, Raise e)
      | (w, Ok vehicle) =>
          let '(w, date_scraped) := strftime_now w "%Y-%m-%d %H:%M:%S" in
          (w, Ok {| r_competitor := vd_competitor vdp;
                    r_url := vd_url vdp;
                    r_vin := v_vin vehicle;
                    r_year := v_year vehicle;
                    r_make := v_make vehicle;
                    r_model := v_model vehicle;
                    r_trim := v_trim vehicle;
                    r_msrp := v_msrp vehicle;
                    r_sale_price := v_sale_price vehicle;
                    r_date_scraped := date_scraped |})
      end
  end.

(** Lines 92-129: one iteration of the page loop. *)
Definition process_vdp (job : AnalysisJob) (w : W) (competitor_name : string)
    (n_vdps vdp_idx : nat) (vdp_url : string) : AnalysisJob * W :=
  let job := update_progress
    {| kw_current_competitor := None; kw_completed_competitors := None;
       kw_current_vdp := Some vdp_idx; kw_total_vdps := None;
       kw_processed_vdps := None |} job in
  let job := set_status ("Processing " +:+ competitor_name +:+ " - VDP "
                         +:+ pretty vdp_idx +:+ "/" +:+ pretty n_vdps) job in
  match vdp_fetch w vdp_url with
  | (w, Ok result) =>
      let job := add_result result job in
      let job := update_progress
        {| kw_current_competitor := None; kw_completed_competitors := None;
           kw_current_vdp := None; kw_total_vdps := None;
           kw_processed_vdps := Some (processed_vdps (progress job) + 1) |} job in
      (job, sleep w 1)
  | (w, Raise e) => (add_error (vdp_error_msg vdp_url e) job, w)
  end.

(** Line 91: [for vdp_idx, vdp_url in enumerate(vdp_urls, 1)], from
    [vdp_idx] on; [n_vdps] is [len(vdp_urls)] of the whole list. *)
Fixpoint process_vdps (job : AnalysisJob) (w : W) (competitor_name : string)
    (n_vdps vdp_idx : nat) (vdp_urls : list string) : AnalysisJob * W :=
  match vdp_urls with
  | [] => (job, w)
  | vdp_url :: rest =>
      let '(job, w) := process_vdp job w competitor_name n_vdps vdp_idx vdp_url in
      process_vdps job w competitor_name n_vdps (S vdp_idx) rest
  end.

(** Lines 74-136: one iteration of the competitor loop.  The third
    component is the local [vdp_urls] ([[]] when the pages were not
    discovered), which the source does not keep. *)
Definition process_sitemap (job : AnalysisJob) (w : W) (idx : nat)
    (sitemap_url : string) : AnalysisJob * W * list string :=
  match extract_competitor_name sitemap_url with
  | Raise e => (add_error (sitemap_error_msg sitemap_url e) job, w, [])
  | Ok competitor_name =>
      let job := update_progress
        {| kw_current_competitor := Some competitor_name;
           kw_completed_competitors := Some (idx - 1);
           kw_current_vdp := Some 0; kw_total_vdps := Some 0;
           kw_processed_vdps := None |} job in
      let job := set_status ("Parsing sitemap for " +:+ competitor_name) job in
      match parse_sitemap (Some VDP_LIMIT) w sitemap_url with
      | (w, Raise e) => (add_error (sitemap_error_msg sitemap_url e) job, w, [])
      | (w, Ok vdp_urls) =>
          let job := update_progress
            {| kw_current_competitor := None; kw_completed_competitors := None;
               kw_current_vdp := None; kw_total_vdps := Some (length vdp_urls);
               kw_processed_vdps := None |} job in
          let '(job, w) :=
            process_vdps job w competitor_name (length vdp_urls) 1 vdp_urls in
          let job := update_progress
            {| kw_current_competitor := None;
               kw_completed_competitors := Some idx;
               kw_current_vdp := None; kw_total_vdps := None;
               kw_processed_vdps := None |} job in
          (job, w, vdp_urls)
      end
  end.

(** Line 73: [for idx, sitemap_url in enumerate(job.sitemap_urls, 1)], from
    [idx] on.  The third component collects the pages discovered. *)
Fixpoint process_sitemaps (job : AnalysisJob) (w : W) (idx : nat)
    (urls : list string) : AnalysisJob * W * list string :=
  match urls with
  | [] => (job, w, [])
  | sitemap_url :: rest =>
      let '(job, w, vdp_urls) := process_sitemap job w idx sitemap_url in
      let '(job, w, discovered) := process_sitemaps job w (S idx) rest in
      (job, w, vdp_urls ++ discovered)
  end.

(** Lines 147-150: the handler of the outer [try]. *)
Definition critical_error (e : exn) (job : AnalysisJob) : AnalysisJob :=
  let job := set_status ("error: " +:+ str_of_exn e) job in
  add_error ("Critical error: " +:+ str_of_exn e) job.

(** The result of a run: the job and the files as the runner leaves
    them, and the pages it discovered. *)
Record run_result : Type := {
  run_job : AnalysisJob;
  run_files : files;
  run_world : W;
  run_discovered : list string
}.

(** Lines 66-145: the [try] block of [run_analysis].  The second
    component tells whether the block ran to its end or raised; the first
    is the state it left behind. *)
Definition run_try (job : AnalysisJob) (fs : files) (w : W)
    : run_result * res unit :=
  let job := set_status "running" job in
  match new_session w with
  | (w, Raise e) =>
      ({| run_job := job; run_files := fs; run_world := w;
          run_discovered := [] |}, Raise e)
  | (w, Ok _) =>
  match new_client w (openai_api_key job) with
  | (w, Raise e) =>
      ({| run_job := job; run_files := fs; run_world := w;
          run_discovered := [] |}, Raise e)
  | (w, Ok _) =>
      let '(job, w, discovered) := process_sitemaps job w 1 (sitemap_urls job) in
      let job := set_status "Generating CSV" job in
      match generate_csv fs w (job_id job) (results job) with
      | (fs, w, Raise e) =>
          ({| run_job := job; run_files := fs; run_world := w;
              run_discovered := discovered |}, Raise e)
      | (fs, w, Ok csv_path) =>
          let job := set_csv_path csv_path job in
          let job := set_status "completed" job in
          let job := set_completed job in
          ({| run_job := job; run_files := fs; run_world := w;
              run_discovered := discovered |}, Ok tt)
      end
  end end.

(** [run_analysis]: the [try] block and the handler of lines 147-150. *)
Definition run_analysis (job : AnalysisJob) (fs : files) (w : W) : run_result :=
  match run_try job fs w with
  | (r, Ok _) => r
  | (r, Raise e) =>
      {| run_job := critical_error e (run_job r); run_files := run_files r;
         run_world := run_world r; run_discovered := run_discovered r |}
  end.

(** The body of a [POST /api/start-analysis] request: each key is absent
    ([None]) or holds a string. *)
Record start_request : Type := {
  gunn_nissan_url : option string;
  ingram_park_url : option string;
  boerne_url : option string;
  champion_nb_url : option string;
  req_openai_api_key : option string
}.

Inductive start_response : Type :=
  | StartRejected (code : nat) (error : string)
  | StartAccepted (job_id : string) (message : string).

(** What [start_analysis] does: the registry as line 200 leaves it, the
    job handed to the background thread on lines 203-205, if one is
    started, and the response.  The thread runs from then on, also before
    the response is returned, and writes to the job the registry holds. *)
Record start_result : Type := {
  start_registry : registry;
  start_world : W;
  start_reply : start_response;
  start_thread : option AnalysisJob
}.

(** [data.get(key, '').strip()] *)
Definition field (v : option string) : string := PyStr.strip (default "" v).

(** Lines 180-188: the submitted locators, stripped, without the empty
    ones. *)
Definition request_sitemap_urls (data : start_request) : list string :=
  let sitemap_urls :=
    [field (gunn_nissan_url data); field (ingram_park_url data);
     field (boerne_url data); field (champion_nb_url data)] in
  filter (fun url => url ≠ "") sitemap_urls.

(** [start_analysis] *)
Definition start_analysis (analysis_results : registry) (w : W)
    (data : start_request) : start_result :=
  let sitemap_urls := request_sitemap_urls data in
  match sitemap_urls with
  | [] =>
      {| start_registry := analysis_results; start_world := w;
         start_reply := StartRejected 400 "At least one sitemap URL is required";
         start_thread := None |}
  | _ =>
      let openai_api_key := field (req_openai_api_key data) in
      if String.eqb openai_api_key ""
      then {| start_registry := analysis_results; start_world := w;
              start_reply := StartRejected 400 "OpenAI API key is required";
              start_thread := None |}
      else
        let '(w, job_id) := uuid4 w in
        let job := AnalysisJob_init job_id sitemap_urls openai_api_key in
        {| start_registry := <[job_id := job]> analysis_results;
           start_world := w;
           start_reply := StartAccepted job_id "Analysis started successfully";
           start_thread := Some job |}
  end.

(** The background thread: [run_analysis] mutates the job object that the
    registry holds, so its final state is what the registry shows. *)
Definition run_thread (analysis_results : registry) (fs : files) (w : W)
    (job : AnalysisJob) : registry * files * W :=
  let r := run_analysis job fs w in
  (<[job_id job := run_job r]> analysis_results, run_files r, run_world r).

(** Line 66, the first statement of the background thread: its effect on
    the registry, which holds the job the thread was handed. *)
Definition thread_first_step (analysis_results : registry) (job : AnalysisJob)
    : registry :=
  <[job_id job := set_status "running" job]> analysis_results.

(** The body of a successful [GET /api/job-status/<job_id>] response. *)
Record status_body : Type := {
  sb_job_id : string;
  sb_status : string;
  sb_progress : progress_dict;
  sb_completed : bool;
  sb_total_results : nat;
  sb_total_errors : nat;
  sb_errors : list string
}.

Inductive status_response : Type :=
  | StatusRejected (code : nat) (error : string)
  | StatusOk (body : status_body).

(** [l[-n:]] for [n > 0] *)
Definition last_n {A : Type} (n : nat) (l : list A) : list A :=
  drop (length l - n) l.

(** [job_status] *)
Definition job_status (analysis_results : registry) (job_id : string)
    : status_response :=
  match analysis_results !! job_id with
  | None => StatusRejected 404 "Job not found"
  | Some job =>
      StatusOk {| sb_job_id := job_id;
                  sb_status := status job;
                  sb_progress := progress job;
                  sb_completed := completed job;
                  sb_total_results := length (results job);
                  sb_total_errors := length (errors job);
                  sb_errors := last_n 10 (errors job) |}
  end.

Inductive download_response : Type :=
  | DownloadRejected (code : nat) (error : string)
  | DownloadFile (path : string) (download_name : string) (content : list csv_row).

(** [download_csv]; [send_file] raises for a path with no file. *)
Definition download_csv (analysis_results : registry) (fs : files) (w : W)
    (job_id : string) : W * res download_response :=
  match analysis_results !! job_id with
  | None => (w, Ok (DownloadRejected 404 "Job not found"))
  | Some job =>
      match completed job, csv_path job with
      | true, Some path =>
          if String.eqb path ""
          then (w, Ok (DownloadRejected 400 "Job not completed or CSV not available"))
          else
            let '(w, stamp) := strftime_now w "%Y%m%d_%H%M%S" in
            match fs !! path with
            | Some content =>
                (w, Ok (DownloadFile path
                          ("nissan_pricing_analysis_" +:+ stamp +:+ ".csv") content))
            | None => (w, Raise (Exception ("No such file: " +:+ path)))
            end
      | _, _ => (w, Ok (DownloadRejected 400 "Job not completed or CSV not available"))
      end
  end.

End App.

(** ** A scripted world

    A small world for running the model on concrete inputs: one host, one
    sitemap, pages that fail when listed in [bad_pages], a language model
    that always sends [reply], and a disk that can be broken. *)

Record script : Type := {
  sitemap_locs : list (option string);
  bad_pages : list string;
  reply : res (option string);
  broken_disk : bool
}.

(** The documents the scripted [json.loads] knows; any other text is not
    JSON for it. *)
Definition quoted (s : string) : string :=
  String (ascii_of_nat 34) s +:+ String (ascii_of_nat 34) EmptyString.

Definition scripted_json : string :=
  "{" +:+ quoted "vin" +:+ ": " +:+ quoted "1n4bl4bv5rn123456" +:+ ", "
      +:+ quoted "year" +:+ ": 2025, "
      +:+ quoted "model" +:+ ": " +:+ quoted " Altima " +:+ ", "
      +:+ quoted "msrp" +:+ ": " +:+ quoted "32,500" +:+ "}".

Definition scripted_items : gmap string pyvalue :=
  <["vin" := PyStr "1n4bl4bv5rn123456"]>
  (<["year" := PyOther true "2025"]>
  (<["model" := PyStr " Altima "]>
  (<["msrp" := PyStr "32,500"]> ∅))).

#[export] Instance scripted_world : World script := {
  VDP_LIMIT := 3;
  netloc := fun _ => Ok "www.gunnnissan.com";
  new_session := fun w => (w, Ok ());
  new_client := fun w _ => (w, Ok ());
  get_sitemap := fun w _ =>
    (w, Ok {| ns_locs := sitemap_locs w; plain_locs := [] |});
  get_page := fun w url =>
    if bool_decide (url ∈ bad_pages w)
    then (w, Raise (Exception "timed out"))
    else (w, Ok {| page_html := "<div class=price></div>";
                   page_title_string := Some "New Nissan" |});
  chat_completion := fun w _ _ _ => (w, reply w);
  json_loads := fun s =>
    if String.eqb s scripted_json then Ok (JsonObject scripted_items)
    else Raise (JSONDecodeError "Expecting value");
  pyfloat := string;
  float_of_str := fun s => Some s;
  float_pos := fun _ => true;
  format_2f := fun s => s +:+ ".00";
  strftime_now := fun w _ => (w, "2024-01-01 00:00:00");
  sleep := fun w _ => w;
  uuid4 := fun w => (w, "job-1");
  makedirs := fun w _ => (w, Ok ());
  open_w := fun w _ =>
    if broken_disk w then (w, Raise (Exception "Permission denied"))
    else (w, Ok ());
  write_lines := fun w _ _ => (w, None)
}.

Definition page1 : string := "https://www.gunnnissan.com/auto/new-2025-nissan-altima/1".
Definition page2 : string := "https://www.gunnnissan.com/auto/new-2025-nissan-rogue/2".
Definition page3 : string := "https://www.gunnnissan.com/auto/new-2025-nissan-sentra/3".

Definition demo_sitemap : string := "https://www.gunnnissan.com/sitemap.xml".

Definition demo_job : AnalysisJob := AnalysisJob_init "job-1" [demo_sitemap] "sk-test".

(** Three pages discovered, the second cannot be fetched. *)
Definition script_page2_fails : script :=
  {| sitemap_locs := [Some page1; Some page2; Some page3];
     bad_pages := [page2];
     reply := Ok (Some scripted_json);
     broken_disk := false |}.

(** One page, which cannot be fetched. *)
Definition script_all_fail : script :=
  {| sitemap_locs := [Some page1];
     bad_pages := [page1];
     reply := Ok (Some scripted_json);
     broken_disk := false |}.

(** One page, and nothing fails. *)
Definition script_one_page : script :=
  {| sitemap_locs := [Some page1];
     bad_pages := [];
     reply := Ok (Some scripted_json);
     broken_disk := false |}.

(** The export file cannot be opened. *)
Definition script_broken_disk : script :=
  {| sitemap_locs := [Some page1];
     bad_pages := [];
     reply := Ok (Some scripted_json);
     broken_disk := true |}.

(** The language model answers in prose. *)
Definition script_prose : script :=
  {| sitemap_locs := [Some page1];
     bad_pages := [];
     reply := Ok (Some "The VIN is 1N4BL4BV5RN123456 (a 2025 Altima).");
     broken_disk := false |}.

(** A submission with one locator, padded with blanks, and a credential. *)
Definition demo_request : start_request :=
  {| gunn_nissan_url := Some "  https://www.gunnnissan.com/sitemap.xml ";
     ingram_park_url := Some "";
     boerne_url := None;
     champion_nb_url := Some "   ";
     req_openai_api_key := Some " sk-test" |}.

(** The same job submitted with another credential. *)
Definition demo_job_other_key : AnalysisJob :=
  AnalysisJob_init "job-1" [demo_sitemap] "sk-other".

(** A job that has accumulated twelve errors. *)
Definition demo_job_12_errors : AnalysisJob :=
  foldl (fun job e => add_error e job) demo_job
    ["e1"; "e2"; "e3"; "e4"; "e5"; "e6"; "e7"; "e8"; "e9"; "e10"; "e11"; "e12"].

(** ** A second scripted world

    No sitemap and no page can be fetched, the host of every locator is
    that of the Boerne dealer, and the language model answers with a
    number for the price. *)

Definition numeric_json : string :=
  "{" +:+ quoted "vin" +:+ ": " +:+ quoted "1N4BL4BV5RN123456" +:+ ", "
      +:+ quoted "msrp" +:+ ": 32500}".

Definition numeric_items : gmap string pyvalue :=
  <["vin" := PyStr "1N4BL4BV5RN123456"]>
  (<["msrp" := PyOther true "32500"]> ∅).

Definition faulty_world : World unit := {|
  VDP_LIMIT := 3;
  netloc := fun _ => Ok "www.nissanboerne.com";
  new_session := fun w => (w, Ok ());
  new_client := fun w _ => (w, Ok ());
  get_sitemap := fun w _ => (w, Raise (Exception "Connection refused"));
  get_page := fun w _ => (w, Raise (Exception "Connection refused"));
  chat_completion := fun w _ _ _ => (w, Ok (Some numeric_json));
  json_loads := fun s =>
    if String.eqb s numeric_json then Ok (JsonObject numeric_items)
    else Raise (JSONDecodeError "Expecting value");
  pyfloat := string;
  float_of_str := fun s => Some s;
  float_pos := fun _ => true;
  format_2f := fun s => s +:+ ".00";
  strftime_now := fun w _ => (w, "2024-01-01 00:00:00");
  sleep := fun w _ => w;
  uuid4 := fun w => (w, "job-2");
  makedirs := fun w _ => (w, Ok ());
  open_w := fun w _ => (w, Ok ());
  write_lines := fun w _ _ => (w, None)
|}.

Definition boerne_sitemap : string := "https://www.nissanboerne.com/sitemap.xml".

(** ** Further scripted worlds *)

(** The world of [scripted_world] with a disk that fills up: the header
    is written, then the write fails. *)
Definition full_disk_world : World script := {|
  VDP_LIMIT := VDP_LIMIT (World := scripted_world);
  netloc := netloc (World := scripted_world);
  new_session := new_session (World := scripted_world);
  new_client := new_client (World := scripted_world);
  get_sitemap := get_sitemap (World := scripted_world);
  get_page := get_page (World := scripted_world);
  chat_completion := chat_completion (World := scripted_world);
  json_loads := json_loads (World := scripted_world);
  pyfloat := pyfloat (World := scripted_world);
  float_of_str := float_of_str (World := scripted_world);
  float_pos := float_pos (World := scripted_world);
  format_2f := format_2f (World := scripted_world);
  strftime_now := strftime_now (World := scripted_world);
  sleep := sleep (World := scripted_world);
  uuid4 := uuid4 (World := scripted_world);
  makedirs := makedirs (World := scripted_world);
  open_w := open_w (World := scripted_world);
  write_lines := fun w _ lines =>
    (w, Some (take 1 lines, Exception "No space left on device"))
|}.

(** A JSON object with an empty make and a blank model, and no trim. *)
Definition blank_json : string :=
  "{" +:+ quoted "vin" +:+ ": " +:+ quoted "1N4BL4BV5RN123456" +:+ ", "
      +:+ quoted "make" +:+ ": " +:+ quoted "" +:+ ", "
      +:+ quoted "model" +:+ ": " +:+ quoted "   " +:+ "}".

Definition blank_items : gmap string pyvalue :=
  <["vin" := PyStr "1N4BL4BV5RN123456"]>
  (<["make" := PyStr ""]>
  (<["model" := PyStr "   "]> ∅)).

(** The world of [faulty_world] with a language model that answers with
    that object. *)
Definition blank_fields_world : World unit := {|
  VDP_LIMIT := 3;
  netloc := fun _ => Ok "www.nissanboerne.com";
  new_session := fun w => (w, Ok ());
  new_client := fun w _ => (w, Ok ());
  get_sitemap := fun w _ => (w, Raise (Exception "Connection refused"));
  get_page := fun w _ => (w, Raise (Exception "Connection refused"));
  chat_completion := fun w _ _ _ => (w, Ok (Some blank_json));
  json_loads := fun s =>
    if String.eqb s blank_json then Ok (JsonObject blank_items)
    else Raise (JSONDecodeError "Expecting value");
  pyfloat := string;
  float_of_str := fun s => Some s;
  float_pos := fun _ => true;
  format_2f := fun s => s +:+ ".00";
  strftime_now := fun w _ => (w, "2024-01-01 00:00:00");
  sleep := fun w _ => w;
  uuid4 := fun w => (w, "job-2");
  makedirs := fun w _ => (w, Ok ());
  open_w := fun w _ => (w, Ok ());
  write_lines := fun w _ _ => (w, None)
|}.

(** A call that always times out, and one that always answers. *)
Definition always_fails (w : script) : script * res string :=
  (w, Raise (Exception "timed out")).

Definition always_answers (w : script) : script * res string := (w, Ok "pong").

(** ** Observations used in the statements *)

(** The texts among [urls] that the filter of [parse_sitemap] accepts, in
    document order. *)
Definition matching_urls (urls : list (option string)) : list string :=
  omap (fun url_elem : option string =>
          match url_elem with
          | Some url =>
              if negb (String.eqb url "") && _is_new_nissan_vdp url
              then Some url else None
          | None => None
          end) urls.

(** An entry of [errors] written by the handler of a page (lines 126-129)
    rather than by the handler of a sitemap or of the whole run. *)
Definition is_page_error (error : string) : bool :=
  String.prefix "Error processing " error
  && negb (String.prefix "Error processing sitemap " error).

Definition page_error_count (errors : list string) : nat :=
  length (filter (fun e => is_page_error e = true) errors).

(** Two jobs that differ at most in the credential. *)
Definition same_but_credential (j1 j2 : AnalysisJob) : Prop :=
  job_id j1 = job_id j2 /\ sitemap_urls j1 = sitemap_urls j2 /\
  status j1 = status j2 /\ progress j1 = progress j2 /\
  results j1 = results j2 /\ errors j1 = errors j2 /\
  completed j1 = completed j2 /\ csv_path j1 = csv_path j2.

(** Every counter of the progress dictionary is zero. *)
Definition zero_counters (p : progress_dict) : Prop :=
  total_competitors p = 0 /\ completed_competitors p = 0 /\
  current_vdp p = 0 /\ total_vdps p = 0 /\ processed_vdps p = 0.

(** A VIN as [_clean_vin] and [_fallback_extraction] accept it. *)
Definition well_formed_vin (s : string) : Prop :=
  String.length s = 17 /\ PyStr.all_chars PyStr.is_upper_alnum s = true.

(** A year as [_clean_year] and [_fallback_extraction] accept it. *)
Definition well_formed_year (s : string) : Prop :=
  exists d1 d2 : ascii,
    PyStr.is_digit d1 = true /\ PyStr.is_digit d2 = true /\
    s = String "2" (String "0" (String d1 (String d2 EmptyString))).

(** [job'] is [job] after some steps of the runner's loops that appended
    [rows] to [results] and [errs] to [errors]: the counter of processed
    pages grew by the number of rows, and nothing else of what the
    statements below observe was touched. *)
Record grows (job job' : AnalysisJob) (rows : list result_row)
    (errs : list string) : Prop := {
  grows_results : results job' = results job ++ rows;
  grows_errors : errors job' = errors job ++ errs;
  grows_processed :
    processed_vdps (progress job') = processed_vdps (progress job) + length rows;
  grows_total :
    total_competitors (progress job') = total_competitors (progress job);
  grows_job_id : job_id job' = job_id job;
  grows_urls : sitemap_urls job' = sitemap_urls job;
  grows_key : openai_api_key job' = openai_api_key job;
  grows_completed : completed job' = completed job;
  grows_csv_path : csv_path job' = csv_path job
}.

Section Observations.
Context {W : Type} `{World W}.

(** A price as [_clean_price] accepts it: a positive float printed with
    two decimals. *)
Definition well_formed_price (s : string) : Prop :=
  exists x : pyfloat, float_pos x = true /\ s = format_2f x.

(** What fetching and extracting each page of [vdp_urls] gives, in the
    worlds in which the page loop reaches them. *)
Fixpoint vdp_outcomes (w : W) (vdp_urls : list string) : list (res result_row) :=
  match vdp_urls with
  | [] => []
  | vdp_url :: rest =>
      match vdp_fetch w vdp_url with
      | (w, Ok result) => Ok result :: vdp_outcomes (sleep w 1) rest
      | (w, Raise e) => Raise e :: vdp_outcomes w rest
      end
  end.

(** The results among the outcomes, in order. *)
Definition rows_of (outcomes : list (res result_row)) : list result_row :=
  omap (fun o => match o with Ok r => Some r | Raise _ => None end) outcomes.

(** One error entry for each page whose outcome is an exception, in order. *)
Definition page_errors (vdp_urls : list string) (outcomes : list (res result_row))
    : list string :=
  omap (fun uo : string * res result_row =>
          match uo.2 with
          | Raise e => Some (vdp_error_msg uo.1 e)
          | Ok _ => None
          end) (zip vdp_urls outcomes).

End Observations.

(** A decoded object on which building [cleaned_data] raises: [vin],
    [make], [model] or [trim] holds a value that is not a string, or a
    price holds a value that is not a string and is true (a number, say). *)
Definition breaks_cleaning (data : gmap string pyvalue) : Prop :=
  (exists key truthy repr,
     key ∈ ["vin"; "make"; "model"; "trim"] /\
     data !! key = Some (PyOther truthy repr)) \/
  (exists key repr,
     key ∈ ["msrp"; "sale_price"] /\ data !! key = Some (PyOther true repr)).

Section RowObservations.
Context {W : Type} `{World W}.

(** A result as the page loop builds it: for an accepted page, under the
    competitor name of its locator, with every validated field well formed
    or 'Not Available'. *)
Definition row_well_formed (r : result_row) : Prop :=
  _is_new_nissan_vdp (r_url r) = true /\
  extract_competitor_name (r_url r) = Ok (r_competitor r) /\
  (r_vin r = NOT_AVAILABLE \/ well_formed_vin (r_vin r)) /\
  (r_year r = NOT_AVAILABLE \/ well_formed_year (r_year r)) /\
  (r_msrp r = NOT_AVAILABLE \/ well_formed_price (r_msrp r)) /\
  (r_sale_price r = NOT_AVAILABLE \/ well_formed_price (r_sale_price r)).

End RowObservations.

(** ** [VehicleScraper.retry_request] *)

Section Retry.
Context {W : Type} `{World W} {A : Type}.

(** The loop of [retry_request], lines 170-177, from [attempt] on with
    [remaining] iterations of [range(max_retries)] left; [func] is the call
    of [func] on its arguments.  The second component lists the [wait_time]s
    slept, in order; the result is [None] when the loop ends without a
    [return]. *)
Fixpoint retry_loop (func : W -> W * res A) (max_retries : Z) (remaining : nat)
    (attempt : nat) (w : W) : W * list nat * res (option A) :=
  match remaining with
  | O => (w, [], Ok None)
  | S remaining' =>
      match func w with
      | (w, Ok a) => (w, [], Ok (Some a))
      | (w, Raise e) =>
          if (Z.of_nat attempt =? max_retries - 1)%Z
          then (w, [], Raise e)
          else
            let wait_time := 2 ^ attempt in
            let '(w, waits, r) :=
              retry_loop func max_retries remaining' (S attempt)
                         (sleep w wait_time) in
            (w, wait_time :: waits, r)
      end
  end.

(** [VehicleScraper.retry_request] *)
Definition retry_request (func : W -> W * res A) (max_retries : Z) (w : W)
    : W * list nat * res (option A) :=
  retry_loop func max_retries (Z.to_nat max_retries) 0 w.

(** What [func] gives on each of its first [n] calls when every failure is
    followed by the back-off sleep, starting with attempt [attempt]. *)
Fixpoint attempts (func : W -> W * res A) (n attempt : nat) (w : W)
    : list (res A) :=
  match n with
  | O => []
  | S n' =>
      match func w with
      | (w, Ok a) => [Ok a]
      | (w, Raise e) =>
          Raise e :: attempts func n' (S attempt) (sleep w (2 ^ attempt))
      end
  end.

(** What [retry_request] makes of the outcomes of its calls: the value of
    the last call, or its exception. *)
Definition retry_outcome (outs : list (res A)) : res (option A) :=
  match last outs with
  | Some (Ok a) => Ok (Some a)
  | Some (Raise e) => Raise e
  | None => Ok None
  end.

End Retry.

(** The waits of [k] failed attempts that were retried: 1, 2, 4, ... *)
Definition backoff (k : nat) : list nat := map (fun i => 2 ^ i) (seq 0 k).

(** * Properties *)

(** ** The sitemap filter *)

Lemma limit_set_unlimited (l : option Z) :
  l = None \/ l = Some 0%Z -> limit_set l = false.
Proof. intros [-> | ->]; reflexivity. Qed.

Lemma collect_vdp_urls_unlimited (l : option Z) (urls : list (option string))
    (acc : list string) :
  limit_set l = false ->
  collect_vdp_urls l urls acc = acc ++ matching_urls urls.
Proof.
  intros Hl. revert acc.
  induction urls as [| [url |] rest IH]; intros acc; simpl.
  - by rewrite app_nil_r.
  - rewrite Hl. simpl.
    destruct (negb (String.eqb url "") && _is_new_nissan_vdp url).
    + rewrite IH. by rewrite <- app_assoc.
    + apply IH.
  - apply IH.
Qed.

Lemma collect_vdp_urls_limited (k : Z) (urls : list (option string))
    (acc : list string) :
  (0 < k)%Z -> (Z.of_nat (length acc) < k)%Z ->
  collect_vdp_urls (Some k) urls acc
  = take (Z.to_nat k) (acc ++ matching_urls urls).
Proof.
  intros Hk. revert acc.
  induction urls as [| [url |] rest IH]; intros acc Hacc; simpl.
  - rewrite app_nil_r. rewrite take_ge; [done | lia].
  - destruct (negb (String.eqb url "") && _is_new_nissan_vdp url).
    + assert (Hnz : (k =? 0)%Z = false) by (apply Z.eqb_neq; lia).
      rewrite Hnz. simpl.
      destruct (Z.leb_spec k (Z.of_nat (length (acc ++ [url])))) as [Hge | Hlt].
      * rewrite length_app in Hge. simpl in Hge.
        replace (acc ++ url :: matching_urls rest)
          with ((acc ++ [url]) ++ matching_urls rest) by (by rewrite <- app_assoc).
        rewrite take_app_le by (rewrite length_app; simpl; lia).
        rewrite take_ge; [done |]. rewrite length_app. simpl. lia.
      * rewrite IH by done. by rewrite <- app_assoc.
    + by apply IH.
  - by apply IH.
Qed.

Lemma matching_urls_accepted (urls : list (option string)) :
  Forall (fun url => _is_new_nissan_vdp url = true) (matching_urls urls).
Proof.
  induction urls as [| [url |] rest IH]; simpl; try done.
  destruct (negb (String.eqb url "") && _is_new_nissan_vdp url) eqn:E; [| done].
  simpl. constructor; [| done].
  apply andb_true_iff in E. tauto.
Qed.

Lemma collect_vdp_urls_prefix (l : option Z) (urls : list (option string)) :
  exists n, collect_vdp_urls l urls [] = take n (matching_urls urls).
Proof.
  destruct (limit_set l) eqn:Hl.
  - destruct l as [k |]; [| done].
    simpl in Hl. apply negb_true_iff, Z.eqb_neq in Hl.
    destruct (Z.lt_trichotomy k 0) as [Hneg | [-> | Hpos]]; [| done |].
    + (* a negative limit stops at the first accepted page *)
      exists 1. clear Hl.
      induction urls as [| [url |] rest IH]; simpl; try done.
      destruct (negb (String.eqb url "") && _is_new_nissan_vdp url); [| done].
      assert (Hnz : (k =? 0)%Z = false) by (apply Z.eqb_neq; lia).
      rewrite Hnz. simpl.
      destruct (Z.leb_spec k (Z.of_nat 1)); [| lia].
      by rewrite take_0.
    + exists (Z.to_nat k). by rewrite collect_vdp_urls_limited.
  - exists (length (matching_urls urls)).
    rewrite collect_vdp_urls_unlimited by done. simpl. by rewrite firstn_all.
Qed.

Section SitemapProperties.
Context {W : Type} `{World W}.

(** C10: with [vdp_limit] [None] or [0] the cap is off and [parse_sitemap]
    returns every accepted page of the sitemap in document order; with a
    positive [vdp_limit = k] it returns the first [k] accepted pages, so at
    most [k]. *)
Theorem parse_sitemap_limit (w w' : W) (sitemap_url : string) (doc : sitemap_doc) :
  get_sitemap w sitemap_url = (w', Ok doc) ->
  (forall l, l = None \/ l = Some 0%Z ->
     parse_sitemap l w sitemap_url
     = (w', Ok (matching_urls (loc_elements doc)))) /\
  (forall k, (0 < k)%Z ->
     parse_sitemap (Some k) w sitemap_url
     = (w', Ok (take (Z.to_nat k) (matching_urls (loc_elements doc))))
     /\ (Z.of_nat (length (take (Z.to_nat k) (matching_urls (loc_elements doc))))
         <= k)%Z).
Proof.
  intros Hget. split.
  - intros l Hl. unfold parse_sitemap. rewrite Hget.
    rewrite collect_vdp_urls_unlimited by (by apply limit_set_unlimited).
    done.
  - intros k Hk. split.
    + unfold parse_sitemap. rewrite Hget.
      rewrite collect_vdp_urls_limited by (simpl; lia). done.
    + rewrite length_take. lia.
Qed.

End SitemapProperties.

(** ** The registry and the status query *)

Lemma last_n_suffix {A : Type} (n : nat) (l : list A) :
  l = take (length l - n) l ++ last_n n l.
Proof. unfold last_n. by rewrite take_drop. Qed.

Lemma last_n_length {A : Type} (n : nat) (l : list A) :
  length (last_n n l) = min n (length l).
Proof. unfold last_n. rewrite length_drop. lia. Qed.

Lemma last_n_short {A : Type} (n : nat) (l : list A) :
  length l <= n -> last_n n l = l.
Proof.
  intros Hle. unfold last_n.
  replace (length l - n) with 0 by lia. apply drop_0.
Qed.

(** C6: the status query answers 404 for an unknown identifier; for a
    known one it returns the status text, the progress dictionary, the
    completed flag, the two counts and the tail of the error list: all of
    it up to 10 entries, and exactly the last 10, in insertion order, when
    there are more. *)
Theorem job_status_spec (analysis_results : registry) (id : string) :
  (analysis_results !! id = None ->
   job_status analysis_results id = StatusRejected 404 "Job not found") /\
  (forall job, analysis_results !! id = Some job ->
   exists body,
     job_status analysis_results id = StatusOk body /\
     sb_job_id body = id /\
     sb_status body = status job /\
     sb_progress body = progress job /\
     sb_completed body = completed job /\
     sb_total_results body = length (results job) /\
     sb_total_errors body = length (errors job) /\
     (length (errors job) <= 10 -> sb_errors body = errors job) /\
     (10 < length (errors job) ->
      length (sb_errors body) = 10 /\
      errors job = take (length (errors job) - 10) (errors job) ++ sb_errors body)).
Proof.
  split.
  - intros Hnone. unfold job_status. by rewrite Hnone.
  - intros job Hjob. unfold job_status. rewrite Hjob.
    eexists. split; [reflexivity |]. simpl.
    repeat split; try done.
    + apply last_n_short.
    + rewrite last_n_length. lia.
    + apply last_n_suffix.
Qed.

(** C8: the status response does not depend on the credential: two jobs
    that differ only in [openai_api_key] give the same response. *)
Theorem job_status_hides_credential (reg1 reg2 : registry) (id : string)
    (j1 j2 : AnalysisJob) :
  reg1 !! id = Some j1 ->
  reg2 !! id = Some j2 ->
  same_but_credential j1 j2 ->
  job_status reg1 id = job_status reg2 id.
Proof.
  intros H1 H2 (_ & _ & Hs & Hp & Hr & He & Hc & _).
  unfold job_status. rewrite H1, H2.
  by rewrite Hs, Hp, Hr, He, Hc.
Qed.

(** ** Error entries and their kinds *)

Lemma append_cons (c : ascii) (s t : string) :
  String c s +:+ t = String c (s +:+ t).
Proof. reflexivity. Qed.

Lemma append_nil (t : string) : "" +:+ t = t.
Proof. reflexivity. Qed.

Lemma prefix_cons (a b : ascii) (s1 s2 : string) :
  String.prefix (String a s1) (String b s2) = true ->
  a = b /\ String.prefix s1 s2 = true.
Proof.
  simpl. destruct (ascii_dec a b) as [-> | _]; [auto | discriminate].
Qed.

Lemma prefix_nil (s : string) : String.prefix "" s = true.
Proof. by destruct s. Qed.

Lemma prefix_app_cancel (p q s : string) :
  String.prefix (p +:+ q) (p +:+ s) = String.prefix q s.
Proof.
  induction p as [| a p IH]; [done |].
  rewrite !append_cons. simpl. by destruct (ascii_dec a a).
Qed.

Lemma prefix_app_same (p s : string) : String.prefix p (p +:+ s) = true.
Proof.
  induction p as [| a p IH]; [apply prefix_nil |].
  rewrite append_cons. simpl. by destruct (ascii_dec a a).
Qed.

Lemma contains_prefix (sub s : string) :
  String.prefix sub s = true -> PyStr.contains sub s = true.
Proof. intros Hp. destruct s; cbn [PyStr.contains]; by rewrite Hp. Qed.

(** A locator that begins with the word of the sitemap handler's message
    is never a discovered page: the filter excludes 'sitemap'. *)
Lemma sitemap_word_excluded (u : string) :
  String.prefix "sitemap" u = true -> _is_new_nissan_vdp u = false.
Proof.
  intros Hp.
  assert (Hc : PyStr.contains "sitemap" (PyStr.lower u) = true).
  { do 7 (destruct u as [| ? u]; [discriminate |];
          apply prefix_cons in Hp as [<- Hp]).
    apply contains_prefix. vm_compute. by destruct u. }
  unfold _is_new_nissan_vdp.
  assert (Hex : PyStr.contains_any exclude_terms (PyStr.lower u) = true).
  { apply existsb_exists. exists "sitemap". split; [| exact Hc].
    unfold exclude_terms. simpl. tauto. }
  rewrite Hex. apply andb_false_r.
Qed.

Lemma page_not_sitemap_prefixed (u rest : string) :
  _is_new_nissan_vdp u = true ->
  String.prefix "sitemap " (u +:+ String ":" rest) = false.
Proof.
  intros Hu.
  destruct (String.prefix "sitemap " (u +:+ String ":" rest)) eqn:Hp; [| done].
  exfalso.
  assert (Hs : String.prefix "sitemap" u = true).
  { do 7 (destruct u as [| ? u];
          [ rewrite append_nil in Hp; apply prefix_cons in Hp as [Hne _];
            discriminate Hne
          | rewrite append_cons in Hp; apply prefix_cons in Hp as [<- Hp] ]).
    vm_compute. by destruct u. }
  apply sitemap_word_excluded in Hs. congruence.
Qed.

Lemma is_page_error_vdp (u : string) (e : exn) :
  _is_new_nissan_vdp u = true -> is_page_error (vdp_error_msg u e) = true.
Proof.
  intros Hu. unfold is_page_error, vdp_error_msg.
  apply andb_true_iff. split; [apply prefix_app_same |].
  apply negb_true_iff.
  change (String.prefix ("Error processing " +:+ "sitemap ")
            ("Error processing " +:+ (u +:+ String ":" (" " +:+ str_of_exn e)))
          = false).
  rewrite prefix_app_cancel. by apply page_not_sitemap_prefixed.
Qed.

Lemma is_page_error_sitemap (u : string) (e : exn) :
  is_page_error (sitemap_error_msg u e) = false.
Proof.
  unfold is_page_error, sitemap_error_msg.
  rewrite (prefix_app_same "Error processing sitemap "). apply andb_false_r.
Qed.

Lemma is_page_error_critical (msg : string) :
  is_page_error ("Critical error: " +:+ msg) = false.
Proof. reflexivity. Qed.

Lemma page_error_count_app (l1 l2 : list string) :
  page_error_count (l1 ++ l2) = page_error_count l1 + page_error_count l2.
Proof. unfold page_error_count. by rewrite filter_app, length_app. Qed.

Lemma page_error_count_cons (e : string) (l : list string) :
  page_error_count (e :: l)
  = (if is_page_error e then 1 else 0) + page_error_count l.
Proof.
  unfold page_error_count. rewrite filter_cons.
  destruct (is_page_error e); case_decide; simpl; congruence.
Qed.

(** ** The runner's loops *)

Lemma grows_refl (job : AnalysisJob) : grows job job [] [].
Proof. split; rewrite ?app_nil_r; simpl; try done; lia. Qed.

Lemma grows_trans (a b c : AnalysisJob) (r1 r2 : list result_row)
    (e1 e2 : list string) :
  grows a b r1 e1 -> grows b c r2 e2 -> grows a c (r1 ++ r2) (e1 ++ e2).
Proof.
  intros [] []. split; try congruence.
  - rewrite app_assoc. congruence.
  - rewrite app_assoc. congruence.
  - rewrite length_app. lia.
Qed.

Lemma grows_add_error (e : string) (job : AnalysisJob) :
  grows job (add_error e job) [] [e].
Proof. split; rewrite ?app_nil_r; simpl; try done; lia. Qed.

Section RunnerProperties.
Context {W : Type} `{World W}.

Lemma scrape_vdp_url (w w' : W) (url : string) (vdp : vdp_data) :
  scrape_vdp w url = (w', Ok vdp) -> vd_url vdp = url.
Proof.
  unfold scrape_vdp. destruct (get_page w url) as [w1 [pg | e]]; [| done].
  destruct (extract_competitor_name url); [| done].
  intros [= _ <-]. done.
Qed.

Lemma vdp_fetch_url (w w' : W) (url : string) (r : result_row) :
  vdp_fetch w url = (w', Ok r) -> r_url r = url.
Proof.
  unfold vdp_fetch.
  destruct (scrape_vdp w url) as [w1 [vdp | e]] eqn:Hs; [| done].
  destruct (extract_vehicle_data w1 _ _ _) as [w2 [v | e]]; [| done].
  destruct (strftime_now w2 _) as [w3 d].
  intros [= _ <-]. simpl. by eapply scrape_vdp_url.
Qed.

(** One iteration of the page loop, by the outcome of the fetch. *)
Lemma process_vdp_ok (job : AnalysisJob) (w w1 : W) (c : string) (n i : nat)
    (u : string) (r : result_row) :
  vdp_fetch w u = (w1, Ok r) ->
  (process_vdp job w c n i u).2 = sleep w1 1 /\
  grows job (process_vdp job w c n i u).1 [r] [].
Proof.
  intros Hf. unfold process_vdp. rewrite Hf. simpl. split; [done |].
  split; simpl; rewrite ?app_nil_r; done.
Qed.

Lemma process_vdp_raise (job : AnalysisJob) (w w1 : W) (c : string) (n i : nat)
    (u : string) (e : exn) :
  vdp_fetch w u = (w1, Raise e) ->
  (process_vdp job w c n i u).2 = w1 /\
  grows job (process_vdp job w c n i u).1 [] [vdp_error_msg u e].
Proof.
  intros Hf. unfold process_vdp. rewrite Hf. simpl. split; [done |].
  split; simpl; rewrite ?app_nil_r; try done; lia.
Qed.

(** The page loop appends one result for each page that yields one and one
    error entry for each page that raises, in page order. *)
Lemma process_vdps_grows (job : AnalysisJob) (w : W) (c : string) (n i : nat)
    (urls : list string) :
  grows job (process_vdps job w c n i urls).1
    (rows_of (vdp_outcomes w urls)) (page_errors urls (vdp_outcomes w urls)).
Proof.
  revert job w i.
  induction urls as [| u rest IH]; intros job w i.
  - apply grows_refl.
  - simpl.
    destruct (process_vdp job w c n i u) as [job1 w1'] eqn:Hp.
    destruct (vdp_fetch w u) as [w1 [r | e]] eqn:Hf.
    + destruct (process_vdp_ok job w w1 c n i u r Hf) as [Hw Hg].
      rewrite Hp in Hw, Hg. simpl in Hw, Hg. subst w1'.
      change (rows_of (Ok r :: vdp_outcomes (sleep w1 1) rest))
        with ([r] ++ rows_of (vdp_outcomes (sleep w1 1) rest)).
      change (page_errors (u :: rest) (Ok r :: vdp_outcomes (sleep w1 1) rest))
        with ([] ++ page_errors rest (vdp_outcomes (sleep w1 1) rest)).
      eapply grows_trans; [exact Hg | apply IH].
    + destruct (process_vdp_raise job w w1 c n i u e Hf) as [Hw Hg].
      rewrite Hp in Hw, Hg. simpl in Hw, Hg. subst w1'.
      change (rows_of (Raise e :: vdp_outcomes w1 rest))
        with ([] ++ rows_of (vdp_outcomes w1 rest)).
      change (page_errors (u :: rest) (Raise e :: vdp_outcomes w1 rest))
        with ([vdp_error_msg u e] ++ page_errors rest (vdp_outcomes w1 rest)).
      eapply grows_trans; [exact Hg | apply IH].
Qed.

(** Each page has one outcome, and a result carries the URL of its page. *)
Lemma vdp_outcomes_aligned (w : W) (urls : list string) :
  Forall2 (fun u o => match o with Ok r => r_url r = u | Raise _ => True end)
          urls (vdp_outcomes w urls).
Proof.
  revert w. induction urls as [| u rest IH]; intros w; simpl; [constructor |].
  destruct (vdp_fetch w u) as [w1 [r | e]] eqn:Hf.
  - constructor; [by eapply vdp_fetch_url | apply IH].
  - constructor; [done | apply IH].
Qed.

(** Each accepted page counts once: as a result or as a page-level error. *)
Lemma vdp_outcomes_count (w : W) (urls : list string) :
  Forall (fun u => _is_new_nissan_vdp u = true) urls ->
  length (rows_of (vdp_outcomes w urls))
  + page_error_count (page_errors urls (vdp_outcomes w urls))
  = length urls.
Proof.
  intros Hacc. revert w.
  induction Hacc as [| u rest Hu _ IH]; intros w; simpl; [done |].
  destruct (vdp_fetch w u) as [w1 [r | e]].
  - change (rows_of (Ok r :: vdp_outcomes (sleep w1 1) rest))
      with (r :: rows_of (vdp_outcomes (sleep w1 1) rest)).
    change (page_errors (u :: rest) (Ok r :: vdp_outcomes (sleep w1 1) rest))
      with (page_errors rest (vdp_outcomes (sleep w1 1) rest)).
    simpl. by rewrite IH.
  - change (rows_of (Raise e :: vdp_outcomes w1 rest))
      with (rows_of (vdp_outcomes w1 rest)).
    change (page_errors (u :: rest) (Raise e :: vdp_outcomes w1 rest))
      with (vdp_error_msg u e :: page_errors rest (vdp_outcomes w1 rest)).
    rewrite page_error_count_cons, is_page_error_vdp by done.
    specialize (IH w1). lia.
Qed.

Lemma parse_sitemap_accepted (l : option Z) (w w' : W) (sitemap_url : string)
    (urls : list string) :
  parse_sitemap l w sitemap_url = (w', Ok urls) ->
  Forall (fun u => _is_new_nissan_vdp u = true) urls.
Proof.
  unfold parse_sitemap.
  destruct (get_sitemap w sitemap_url) as [w1 [doc | e]]; [| done].
  intros [= _ <-].
  destruct (collect_vdp_urls_prefix l (loc_elements doc)) as [n ->].
  apply Forall_take, matching_urls_accepted.
Qed.

(** A source whose pages were discovered. *)
Lemma process_sitemap_pages (job : AnalysisJob) (w w1 : W) (idx : nat)
    (sitemap_url c : string) (urls : list string) :
  extract_competitor_name sitemap_url = Ok c ->
  parse_sitemap (Some VDP_LIMIT) w sitemap_url = (w1, Ok urls) ->
  (process_sitemap job w idx sitemap_url).2 = urls /\
  grows job (process_sitemap job w idx sitemap_url).1.1
    (rows_of (vdp_outcomes w1 urls)) (page_errors urls (vdp_outcomes w1 urls)) /\
  completed_competitors (progress (process_sitemap job w idx sitemap_url).1.1)
  = idx.
Proof.
  intros Hc Hp. unfold process_sitemap. rewrite Hc, Hp.
  match goal with
  | |- context [process_vdps ?j ?w ?c ?n ?i ?l] =>
      pose proof (process_vdps_grows j w c n i l) as Hg;
      destruct (process_vdps j w c n i l) as [job4 w4]
  end.
  simpl in *. split; [done |]. split; [| done].
  destruct Hg as [Hr He Hpr Ht Hid Hu Hk Hco Hcs]. simpl in *.
  split; simpl; done.
Qed.

(** One iteration of the competitor loop: what it appends adds up to the
    pages it discovered. *)
Lemma process_sitemap_count (job : AnalysisJob) (w : W) (idx : nat)
    (sitemap_url : string) :
  exists rows errs,
    grows job (process_sitemap job w idx sitemap_url).1.1 rows errs /\
    length rows + page_error_count errs
    = length (process_sitemap job w idx sitemap_url).2.
Proof.
  destruct (extract_competitor_name sitemap_url) as [c | e] eqn:Hc.
  - destruct (parse_sitemap (Some VDP_LIMIT) w sitemap_url) as [w1 [urls | e]]
      eqn:Hp.
    + destruct (process_sitemap_pages job w w1 idx sitemap_url c urls Hc Hp)
        as (Hd & Hg & _).
      eexists _, _. split; [exact Hg |]. rewrite Hd.
      apply vdp_outcomes_count. by eapply parse_sitemap_accepted.
    + unfold process_sitemap. rewrite Hc, Hp. simpl.
      exists [], [sitemap_error_msg sitemap_url e]. split.
      * split; simpl; rewrite ?app_nil_r; try done; lia.
      * rewrite page_error_count_cons, is_page_error_sitemap. done.
  - unfold process_sitemap. rewrite Hc. simpl.
    exists [], [sitemap_error_msg sitemap_url e]. split.
    + apply grows_add_error.
    + rewrite page_error_count_cons, is_page_error_sitemap. done.
Qed.

Lemma process_sitemaps_count (job : AnalysisJob) (w : W) (idx : nat)
    (urls : list string) :
  exists rows errs,
    grows job (process_sitemaps job w idx urls).1.1 rows errs /\
    length rows + page_error_count errs
    = length (process_sitemaps job w idx urls).2.
Proof.
  revert job w idx.
  induction urls as [| u rest IH]; intros job w idx; simpl.
  - exists [], []. split; [apply grows_refl | done].
  - destruct (process_sitemap_count job w idx u) as (r1 & e1 & Hg1 & Hn1).
    destruct (process_sitemap job w idx u) as [[job1 w1] d1].
    destruct (IH job1 w1 (S idx)) as (r2 & e2 & Hg2 & Hn2).
    destruct (process_sitemaps job1 w1 (S idx) rest) as [[job2 w2] d2].
    simpl in *. exists (r1 ++ r2), (e1 ++ e2). split.
    + by eapply grows_trans.
    + rewrite !length_app, page_error_count_app. lia.
Qed.


(** A whole run: what it appends to a job adds up to the pages it
    discovered. *)
Lemma run_analysis_count (job : AnalysisJob) (fs : files) (w : W) :
  exists rows errs,
    results (run_job (run_analysis job fs w)) = results job ++ rows /\
    errors (run_job (run_analysis job fs w)) = errors job ++ errs /\
    length rows + page_error_count errs
    = length (run_discovered (run_analysis job fs w)).
Proof.
  unfold run_analysis, run_try.
  destruct (new_session w) as [w1 [[] | e]]; simpl.
  2: { exists [], ["Critical error: " +:+ str_of_exn e].
       rewrite app_nil_r. done. }
  destruct (new_client w1 (openai_api_key job)) as [w2 [[] | e]]; simpl.
  2: { exists [], ["Critical error: " +:+ str_of_exn e].
       rewrite app_nil_r. done. }
  destruct (process_sitemaps_count (set_status "running" job) w2 1
              (sitemap_urls job)) as (rows & errs & Hg & Hn).
  destruct (process_sitemaps (set_status "running" job) w2 1 (sitemap_urls job))
    as [[job1 w3] d].
  simpl in *. destruct Hg as [Hr He _ _ _ _ _ _ _]. simpl in *.
  destruct (generate_csv fs w3 (job_id job1) (results job1))
    as [[fs' w4] [path | e]]; simpl.
  - exists rows, errs. done.
  - exists rows, (errs ++ ["Critical error: " +:+ str_of_exn e]).
    rewrite He, app_assoc. repeat split; [done |].
    rewrite page_error_count_app, page_error_count_cons, is_page_error_critical.
    simpl. unfold page_error_count at 2. simpl. lia.
Qed.

(** C3: at the end of a run of a newly created job, the number of results
    plus the number of page-level error entries is the number of pages
    discovered over all sources; so there are at most as many results as
    discovered pages. *)
Theorem run_analysis_one_outcome_per_page (id : string) (urls : list string)
    (key : string) (fs : files) (w : W) :
  let r := run_analysis (AnalysisJob_init id urls key) fs w in
  length (results (run_job r)) + page_error_count (errors (run_job r))
  = length (run_discovered r) /\
  length (results (run_job r)) <= length (run_discovered r).
Proof.
  intros r. subst r.
  destruct (run_analysis_count (AnalysisJob_init id urls key) fs w)
    as (rows & errs & Hr & He & Hn).
  rewrite Hr, He. simpl. lia.
Qed.

(** C2: for a source whose pages were discovered, every page has one
    outcome; each page that raises appends exactly one error entry, which
    names its URL, each other page appends its result, both in page order,
    and the loop runs to its end: the source is then counted as completed
    and the runner goes on with the sources that follow. *)
Theorem process_sitemap_isolates_page_failures (job : AnalysisJob) (w w1 : W)
    (idx : nat) (sitemap_url c : string) (vdp_urls : list string) :
  extract_competitor_name sitemap_url = Ok c ->
  parse_sitemap (Some VDP_LIMIT) w sitemap_url = (w1, Ok vdp_urls) ->
  let outcomes := vdp_outcomes w1 vdp_urls in
  let job' := (process_sitemap job w idx sitemap_url).1.1 in
  Forall2 (fun u o => match o with Ok r => r_url r = u | Raise _ => True end)
          vdp_urls outcomes /\
  results job' = results job ++ rows_of outcomes /\
  errors job' = errors job ++ page_errors vdp_urls outcomes /\
  length (rows_of outcomes) + length (page_errors vdp_urls outcomes)
  = length vdp_urls /\
  completed_competitors (progress job') = idx /\
  (process_sitemap job w idx sitemap_url).2 = vdp_urls /\
  forall rest,
    (process_sitemaps job w idx (sitemap_url :: rest)).1.1
    = (process_sitemaps job' (process_sitemap job w idx sitemap_url).1.2
                        (S idx) rest).1.1.
Proof.
  intros Hc Hp outcomes job'. subst outcomes job'.
  destruct (process_sitemap_pages job w w1 idx sitemap_url c vdp_urls Hc Hp)
    as (Hd & [Hr He _ _ _ _ _ _ _] & Hcc).
  split; [apply vdp_outcomes_aligned |].
  split; [done |]. split; [done |]. split; [| split; [done | split; [done |]]].
  2: { intros rest. cbn [process_sitemaps].
       destruct (process_sitemap job w idx sitemap_url) as [[j1 w1'] d1].
       cbn [fst snd].
       by destruct (process_sitemaps j1 w1' (S idx) rest) as [[j2 w2] d2]. }
  clear. generalize w1. induction vdp_urls as [| u rest IH]; intros w; [done |].
  simpl. destruct (vdp_fetch w u) as [w2 [r | e]].
  - change (rows_of (Ok r :: vdp_outcomes (sleep w2 1) rest))
      with (r :: rows_of (vdp_outcomes (sleep w2 1) rest)).
    change (page_errors (u :: rest) (Ok r :: vdp_outcomes (sleep w2 1) rest))
      with (page_errors rest (vdp_outcomes (sleep w2 1) rest)).
    simpl. by rewrite IH.
  - change (rows_of (Raise e :: vdp_outcomes w2 rest))
      with (rows_of (vdp_outcomes w2 rest)).
    change (page_errors (u :: rest) (Raise e :: vdp_outcomes w2 rest))
      with (vdp_error_msg u e :: page_errors rest (vdp_outcomes w2 rest)).
    simpl. specialize (IH w2). lia.
Qed.

(** C4, as the code has it: a page whose processing fails appends exactly
    one error entry and no result, and leaves [processed_vdps] as it was;
    the counter grows, by one, only for a page that yields a result. *)
Theorem process_vdp_counts_results_only (job : AnalysisJob) (w : W)
    (c : string) (n i : nat) (u : string) :
  let job' := (process_vdp job w c n i u).1 in
  (forall w1 e, vdp_fetch w u = (w1, Raise e) ->
     errors job' = errors job ++ [vdp_error_msg u e] /\
     results job' = results job /\
     processed_vdps (progress job') = processed_vdps (progress job)) /\
  (forall w1 r, vdp_fetch w u = (w1, Ok r) ->
     errors job' = errors job /\
     results job' = results job ++ [r] /\
     processed_vdps (progress job') = processed_vdps (progress job) + 1).
Proof.
  intros job'. subst job'. split.
  - intros w1 e Hf.
    destruct (process_vdp_raise job w w1 c n i u e Hf)
      as [_ [Hr He Hp _ _ _ _ _ _]].
    rewrite Hr, He, Hp, app_nil_r. simpl. repeat split. lia.
  - intros w1 r Hf.
    destruct (process_vdp_ok job w w1 c n i u r Hf)
      as [_ [Hr He Hp _ _ _ _ _ _]].
    rewrite Hr, He, Hp, app_nil_r. done.
Qed.

Lemma process_sitemaps_grows (job : AnalysisJob) (w : W) (idx : nat)
    (urls : list string) :
  exists rows errs, grows job (process_sitemaps job w idx urls).1.1 rows errs.
Proof.
  destruct (process_sitemaps_count job w idx urls) as (rows & errs & Hg & _).
  eauto.
Qed.

(** Whatever raises in the [try] block of a run, the job it leaves has
    the [completed] flag and the export path it started with. *)
Lemma run_try_raise_state (job : AnalysisJob) (fs : files) (w : W)
    (r1 : run_result) (e : exn) :
  run_try job fs w = (r1, Raise e) ->
  completed (run_job r1) = completed job /\
  csv_path (run_job r1) = csv_path job.
Proof.
  unfold run_try.
  destruct (new_session w) as [w1 [[] | e1]]; [| by intros [= <- _]].
  destruct (new_client w1 _) as [w2 [[] | e2]]; [| by intros [= <- _]].
  destruct (process_sitemaps_grows (set_status "running" job) w2 1
              (sitemap_urls (set_status "running" job)))
    as (rows & errs & [_ _ _ _ _ _ _ Hco Hcs]).
  destruct (process_sitemaps _ w2 1 _) as [[job1 w3] d].
  destruct (generate_csv fs w3 _ _) as [[fs' w4] [path | e3]]; [done |].
  intros [= <- _]. done.
Qed.

(** C1, as the code has it: when an exception escapes the [try] block of
    a run of a newly created job (the export failing, for one), the status
    is set to the error, one critical-error entry is appended and the
    export path stays unset, but [completed] stays false: the handler does
    not set it, and the status query keeps reporting the job as not
    completed. *)
Theorem run_analysis_escape_leaves_uncompleted (id : string)
    (urls : list string) (key : string) (analysis_results : registry)
    (fs : files) (w : W) (r1 : run_result) (e : exn) :
  let job := AnalysisJob_init id urls key in
  run_try job fs w = (r1, Raise e) ->
  let job' := run_job (run_analysis job fs w) in
  status job' = "error: " +:+ str_of_exn e /\
  errors job' = errors (run_job r1) ++ ["Critical error: " +:+ str_of_exn e] /\
  csv_path job' = None /\
  completed job' = false /\
  exists body,
    job_status (run_thread analysis_results fs w job).1.1 id = StatusOk body /\
    sb_completed body = false /\
    sb_status body = "error: " +:+ str_of_exn e.
Proof.
  intros job Ht job'.
  destruct (run_try_raise_state job fs w r1 e Ht) as [Hco Hcs].
  assert (Hjob' : job' = critical_error e (run_job r1)).
  { subst job'. unfold run_analysis. by rewrite Ht. }
  assert (Hfields : status job' = "error: " +:+ str_of_exn e /\
                    completed job' = false /\ csv_path job' = None).
  { rewrite Hjob'. simpl. by rewrite Hco, Hcs. }
  destruct Hfields as (Hst & Hcomp & Hpath).
  split; [done |]. split; [by rewrite Hjob' |].
  split; [done |]. split; [done |].
  unfold run_thread, job_status. simpl. fold job job'.
  rewrite lookup_insert_eq. eexists. split; [reflexivity |]. done.
Qed.

(** C9: when the runner reaches the export with no results and the disk
    does not fail, [generate_csv] creates the file with no header and no
    rows and returns its path; the job ends completed with that path, and
    the download sends the empty file rather than an error. *)
Theorem run_analysis_empty_export (job : AnalysisJob)
    (analysis_results : registry) (fs : files)
    (w w1 w2 w3 w4 w5 w6 : W) (job1 : AnalysisJob) (d : list string) :
  let path := "exports/" +:+ job_id job +:+ ".csv" in
  new_session w = (w1, Ok tt) ->
  new_client w1 (openai_api_key job) = (w2, Ok tt) ->
  process_sitemaps (set_status "running" job) w2 1 (sitemap_urls job)
  = (job1, w3, d) ->
  results job1 = [] ->
  makedirs w3 "exports" = (w4, Ok tt) ->
  open_w w4 path = (w5, Ok tt) ->
  let r := run_analysis job fs w in
  generate_csv fs w3 (job_id job1) (results job1) = (<[path := []]> fs, w5, Ok path) /\
  run_files r !! path = Some [] /\
  status (run_job r) = "completed" /\
  completed (run_job r) = true /\
  csv_path (run_job r) = Some path /\
  exists w7 name,
    download_csv (<[job_id job := run_job r]> analysis_results) (run_files r) w6
                 (job_id job)
    = (w7, Ok (DownloadFile path name [])).
Proof.
  intros path Hs Hc Hp Hnil Hm Ho r.
  destruct (process_sitemaps_grows (set_status "running" job) w2 1
              (sitemap_urls job)) as (rows & errs & Hgr).
  rewrite Hp in Hgr. simpl in Hgr.
  destruct Hgr as [_ _ _ _ Hid _ _ _ _]. simpl in Hid.
  assert (Hg : generate_csv fs w3 (job_id job1) (results job1)
               = (<[path := []]> fs, w5, Ok path)).
  { unfold generate_csv. rewrite Hm, Hid. fold path. rewrite Ho, Hnil. done. }
  assert (Hr : r = {| run_job := set_completed (set_status "completed"
                        (set_csv_path path (set_status "Generating CSV" job1)));
                      run_files := <[path := []]> fs;
                      run_world := w5;
                      run_discovered := d |}).
  { subst r. unfold run_analysis, run_try. rewrite Hs. simpl. rewrite Hc.
    simpl. rewrite Hp. simpl. rewrite Hg. done. }
  split; [exact Hg |]. rewrite Hr. simpl.
  split; [apply lookup_insert_eq |]. repeat split.
  unfold download_csv. rewrite lookup_insert_eq. simpl.
  destruct (strftime_now w6 "%Y%m%d_%H%M%S") as [w7 stamp].
  rewrite lookup_insert_eq. eauto.
Qed.

End RunnerProperties.

(** ** The extractor *)

Lemma keep_all_chars (p : ascii -> bool) (s : string) :
  PyStr.all_chars p (PyStr.keep p s) = true.
Proof.
  induction s as [| c s IH]; simpl; [done |].
  destruct (p c) eqn:Hc; simpl; [by rewrite Hc | done].
Qed.

Lemma match_here_upper_alnum (n : nat) (s m : string) :
  PyStr.match_here (repeat PyStr.UpperAlnum n) s = Some m ->
  String.length m = n /\ PyStr.all_chars PyStr.is_upper_alnum m = true.
Proof.
  revert s m. induction n as [| n IH]; intros s m; simpl.
  - intros [= <-]. done.
  - destruct s as [| c s]; [done |].
    destruct (PyStr.is_upper_alnum c) eqn:Hc; [| done].
    destruct (PyStr.match_here (repeat PyStr.UpperAlnum n) s) as [m' |] eqn:Hm;
      [| done].
    intros [= <-]. destruct (IH s m' Hm) as [Hl Ha].
    simpl. by rewrite Hl, Hc, Ha.
Qed.

Lemma match_here_year (s m : string) :
  PyStr.match_here year_pattern s = Some m -> well_formed_year m.
Proof.
  change year_pattern
    with [PyStr.Lit "2"; PyStr.Lit "0"; PyStr.Digit; PyStr.Digit].
  destruct s as [| c1 s]; [done |]. cbn [PyStr.match_here PyStr.atom_ok].
  destruct (Ascii.eqb_spec "2" c1) as [<- | _]; [| done].
  destruct s as [| c2 s]; [done |]. cbn [PyStr.match_here PyStr.atom_ok].
  destruct (Ascii.eqb_spec "0" c2) as [<- | _]; [| done].
  destruct s as [| c3 s]; [done |]. cbn [PyStr.match_here PyStr.atom_ok].
  destruct (PyStr.is_digit c3) eqn:H3; [| done].
  destruct s as [| c4 s]; [done |]. cbn [PyStr.match_here PyStr.atom_ok].
  destruct (PyStr.is_digit c4) eqn:H4; [| done].
  intros [= <-]. by exists c3, c4.
Qed.

Lemma re_search_sound (P : string -> Prop) (p : list PyStr.atom) :
  (forall s m, PyStr.match_here p s = Some m -> P m) ->
  forall s m, PyStr.re_search p s = Some m -> P m.
Proof.
  intros Hp s. induction s as [| c s IH]; intros m; simpl.
  - destruct (PyStr.match_here p "") as [m' |] eqn:Hm; [| done].
    intros [= <-]. by eapply Hp.
  - destruct (PyStr.match_here p (String c s)) as [m' |] eqn:Hm.
    + intros [= <-]. by eapply Hp.
    + apply IH.
Qed.

Lemma _clean_vin_well_formed (vin : pyvalue) (s : string) :
  _clean_vin vin = Ok s -> s = NOT_AVAILABLE \/ well_formed_vin s.
Proof.
  unfold _clean_vin. destruct vin as [t | b r]; simpl; [| done].
  destruct (Nat.eqb_spec
              (String.length (PyStr.keep PyStr.is_upper_alnum (PyStr.upper t))) 17)
    as [Hl | _]; intros [= <-]; [right | by left].
  split; [done | apply keep_all_chars].
Qed.

Lemma _clean_year_well_formed (year : pyvalue) :
  _clean_year year = NOT_AVAILABLE \/ well_formed_year (_clean_year year).
Proof.
  unfold _clean_year.
  destruct (PyStr.re_search year_pattern (py_str year)) as [m |] eqn:Hm;
    [right | by left].
  eapply re_search_sound; [apply match_here_year | exact Hm].
Qed.

Lemma _fallback_extraction_fields (content : string) :
  let v := _fallback_extraction content in
  (v_vin v = NOT_AVAILABLE \/ well_formed_vin (v_vin v)) /\
  (v_year v = NOT_AVAILABLE \/ well_formed_year (v_year v)) /\
  v_make v = "Nissan" /\ v_model v = NOT_AVAILABLE /\
  v_trim v = NOT_AVAILABLE /\ v_msrp v = NOT_AVAILABLE /\
  v_sale_price v = NOT_AVAILABLE.
Proof.
  unfold _fallback_extraction.
  destruct (PyStr.re_search (repeat PyStr.UpperAlnum 17) content) as [vin |] eqn:Hv;
    destruct (PyStr.re_search year_pattern content) as [yr |] eqn:Hy; simpl;
    repeat split; auto; right;
    try (eapply (re_search_sound well_formed_vin);
         [apply match_here_upper_alnum | exact Hv]);
    try (eapply re_search_sound; [apply match_here_year | exact Hy]).
Qed.

Section ExtractorProperties.
Context {W : Type} `{World W}.

Lemma _clean_price_well_formed (price : pyvalue) (s : string) :
  _clean_price price = Ok s -> s = NOT_AVAILABLE \/ well_formed_price s.
Proof.
  unfold _clean_price.
  destruct (negb (py_truthy price)); [intros [= <-]; by left |].
  destruct (str_method "lower" PyStr.lower price) as [low | e]; [| done].
  case_bool_decide; [intros [= <-]; by left |].
  destruct (_ && _); [| intros [= <-]; by left].
  destruct (float_of_str _) as [x |]; [| intros [= <-]; by left].
  destruct (float_pos x) eqn:Hx; intros [= <-]; [right | by left].
  by exists x.
Qed.

Lemma str_method_exception (name : string) (f : string -> string) (v : pyvalue)
    (e : exn) :
  str_method name f v = Raise e -> exists msg, e = Exception msg.
Proof. destruct v; simpl; [done |]. intros [= <-]. eauto. Qed.

Lemma _clean_price_exception (price : pyvalue) (e : exn) :
  _clean_price price = Raise e -> exists msg, e = Exception msg.
Proof.
  unfold _clean_price.
  destruct (negb (py_truthy price)); [done |].
  destruct (str_method "lower" PyStr.lower price) as [low | e'] eqn:Hl.
  - case_bool_decide; [done |].
    destruct (_ && _); [| done].
    destruct (float_of_str _) as [x |]; [| done].
    by destruct (float_pos x).
  - intros [= <-]. by eapply str_method_exception.
Qed.

(** Building [cleaned_data] yields well-formed fields, or raises an
    exception that is not a JSON decoding error. *)
Lemma clean_data_cases (doc : json_doc) :
  match clean_data doc with
  | Ok v =>
      (v_vin v = NOT_AVAILABLE \/ well_formed_vin (v_vin v)) /\
      (v_year v = NOT_AVAILABLE \/ well_formed_year (v_year v)) /\
      (v_msrp v = NOT_AVAILABLE \/ well_formed_price (v_msrp v)) /\
      (v_sale_price v = NOT_AVAILABLE \/ well_formed_price (v_sale_price v))
  | Raise e => exists msg, e = Exception msg
  end.
Proof.
  unfold clean_data. destruct doc as [data |]; [| eauto].
  destruct (_clean_vin (dict_get data "vin" "")) as [vin | e] eqn:Hvin.
  2: { unfold _clean_vin in Hvin.
       destruct (str_method "upper" _ _) eqn:Hu; [by destruct (_ =? _)%nat |].
       injection Hvin as <-. by eapply str_method_exception. }
  destruct (str_method "strip" _ (dict_get data "make" _)) as [make | e] eqn:Hmk;
    [| by eapply str_method_exception].
  destruct (str_method "strip" _ (dict_get data "model" _)) as [model | e] eqn:Hmd;
    [| by eapply str_method_exception].
  destruct (str_method "strip" _ (dict_get data "trim" _)) as [trim | e] eqn:Htr;
    [| by eapply str_method_exception].
  destruct (_clean_price (dict_get data "msrp" "")) as [msrp | e] eqn:Hms;
    [| by eapply _clean_price_exception].
  destruct (_clean_price (dict_get data "sale_price" "")) as [sale | e] eqn:Hsp;
    [| by eapply _clean_price_exception].
  simpl. repeat split.
  - by eapply _clean_vin_well_formed.
  - apply _clean_year_well_formed.
  - by eapply _clean_price_well_formed.
  - by eapply _clean_price_well_formed.
Qed.

(** What [cleaned_data] holds when it is built: each field is what its
    cleaner makes of the value under its key, [make], [model] and [trim]
    being the strings under theirs (or the defaults), stripped. *)
Lemma clean_data_ok_fields (doc : json_doc) (v : vehicle_data) :
  clean_data doc = Ok v ->
  exists data make model trim,
    doc = JsonObject data /\
    _clean_vin (dict_get data "vin" "") = Ok (v_vin v) /\
    v_year v = _clean_year (dict_get data "year" "") /\
    dict_get data "make" "Nissan" = PyStr make /\
    v_make v = PyStr.strip make /\
    dict_get data "model" NOT_AVAILABLE = PyStr model /\
    v_model v = PyStr.strip model /\
    dict_get data "trim" NOT_AVAILABLE = PyStr trim /\
    v_trim v = PyStr.strip trim /\
    _clean_price (dict_get data "msrp" "") = Ok (v_msrp v) /\
    _clean_price (dict_get data "sale_price" "") = Ok (v_sale_price v).
Proof.
  unfold clean_data. destruct doc as [data |]; [| done].
  destruct (_clean_vin (dict_get data "vin" "")) as [vin | e] eqn:Hvin;
    [| done].
  destruct (dict_get data "make" "Nissan") as [make | ? ?] eqn:Hmk; [| done].
  destruct (dict_get data "model" NOT_AVAILABLE) as [model | ? ?] eqn:Hmd;
    [| done].
  destruct (dict_get data "trim" NOT_AVAILABLE) as [trim | ? ?] eqn:Htr;
    [| done].
  cbn [str_method].
  destruct (_clean_price (dict_get data "msrp" "")) as [msrp | e] eqn:Hms;
    [| done].
  destruct (_clean_price (dict_get data "sale_price" "")) as [sale | e] eqn:Hsp;
    [| done].
  intros [= <-]. exists data, make, model, trim. simpl. repeat split; done.
Qed.

(** C7, as the code has it: unless the call to the language model itself
    fails with a JSON decoding error, [extract_vehicle_data] returns a
    record; its [vin], [year], [msrp] and [sale_price] are each well formed
    or 'Not Available'; after any other internal failure the record is the
    default one ('Nissan' as make, 'Not Available' elsewhere), and after a
    response that is not JSON it is the default one with [vin] and [year]
    taken from the response text where it shows them; for a response that
    is a JSON object with well-typed fields each field is what its cleaner
    makes of the value under its key, and [make], [model] and [trim] are
    the strings under theirs (by default 'Nissan', 'Not Available' and
    'Not Available'), stripped and not validated. *)
Theorem extract_vehicle_data_degrades (w : W) (html_content url : string)
    (page_title : option string) :
  (forall w1 msg,
     chat_completion w url page_title (truncate_html html_content)
     <> (w1, Raise (JSONDecodeError msg))) ->
  exists w' v,
    extract_vehicle_data w html_content url page_title = (w', Ok v) /\
    (v_vin v = NOT_AVAILABLE \/ well_formed_vin (v_vin v)) /\
    (v_year v = NOT_AVAILABLE \/ well_formed_year (v_year v)) /\
    (v_msrp v = NOT_AVAILABLE \/ well_formed_price (v_msrp v)) /\
    (v_sale_price v = NOT_AVAILABLE \/ well_formed_price (v_sale_price v)) /\
    (forall w1 content msg,
       extract_try w (truncate_html html_content) url page_title
       = (w1, content, Raise (Exception msg)) ->
       v = default_vehicle_data) /\
    (forall w1 content msg,
       extract_try w (truncate_html html_content) url page_title
       = (w1, Some content, Raise (JSONDecodeError msg)) ->
       v = _fallback_extraction content /\
       v_make v = "Nissan" /\ v_model v = NOT_AVAILABLE /\
       v_trim v = NOT_AVAILABLE /\ v_msrp v = NOT_AVAILABLE /\
       v_sale_price v = NOT_AVAILABLE) /\
    (forall w1 content v0,
       extract_try w (truncate_html html_content) url page_title
       = (w1, Some content, Ok v0) ->
       exists data make model trim,
         json_loads content = Ok (JsonObject data) /\
         _clean_vin (dict_get data "vin" "") = Ok (v_vin v) /\
         v_year v = _clean_year (dict_get data "year" "") /\
         dict_get data "make" "Nissan" = PyStr make /\
         v_make v = PyStr.strip make /\
         dict_get data "model" NOT_AVAILABLE = PyStr model /\
         v_model v = PyStr.strip model /\
         dict_get data "trim" NOT_AVAILABLE = PyStr trim /\
         v_trim v = PyStr.strip trim /\
         _clean_price (dict_get data "msrp" "") = Ok (v_msrp v) /\
         _clean_price (dict_get data "sale_price" "") = Ok (v_sale_price v)).
Proof.
  intros Hup. unfold extract_vehicle_data, extract_try.
  destruct (chat_completion w url page_title (truncate_html html_content))
    as [w1 [[message |] | e]] eqn:Hchat.
  - set (content := PyStr.strip_fence_close
                      (PyStr.strip_fence_open (PyStr.strip message))).
    destruct (json_loads content) as [doc | [m | m]] eqn:Hj.
    + pose proof (clean_data_cases doc) as Hcd.
      destruct (clean_data doc) as [v | e] eqn:Hclean.
      * exists w1, v. destruct Hcd as (? & ? & ? & ?).
        do 7 (split; [done |]).
        intros w2 c v0 [= _ <- _].
        destruct (clean_data_ok_fields doc v Hclean)
          as (data & make & model & trim & -> & Hfields).
        exists data, make, model, trim. by split.
      * destruct Hcd as [m ->]. exists w1, default_vehicle_data.
        repeat split; by auto.
    + exists w1, (_fallback_extraction content).
      destruct (_fallback_extraction_fields content)
        as (Hv & Hy & Hmk & Hmd & Htr & Hms & Hsp).
      split; [done |]. split; [done |]. split; [done |].
      split; [by left |]. split; [by left |]. split; [done |].
      split; [| done].
      intros w2 c m' [= _ <- _]. done.
    + exists w1, default_vehicle_data. repeat split; by auto.
  - exists w1, default_vehicle_data. repeat split; by auto.
  - destruct e as [m | m]; [by destruct (Hup w1 m) |].
    exists w1, default_vehicle_data. repeat split; by auto.
Qed.

End ExtractorProperties.

(** * The model on concrete inputs *)

(** The export file cannot be opened: the run ends with the error status
    and the job not completed. *)
Lemma run_analysis_escape_leaves_uncompleted_witness :
  let job' := run_job (run_analysis demo_job ∅ script_broken_disk) in
  (run_try demo_job ∅ script_broken_disk).2
  = Raise (Exception "Permission denied") /\
  status job' = "error: Permission denied" /\
  errors job' = ["Critical error: Permission denied"] /\
  csv_path job' = None /\
  completed job' = false.
Proof.
  assert (Ht : run_try demo_job ∅ script_broken_disk
               = ((run_try demo_job ∅ script_broken_disk).1,
                  Raise (Exception "Permission denied")))
    by (vm_compute; reflexivity).
  destruct (run_analysis_escape_leaves_uncompleted "job-1" [demo_sitemap]
              "sk-test" ∅ ∅ script_broken_disk _ _ Ht)
    as (Hs & He & Hp & Hc & _).
  split; [by rewrite Ht |].
  split; [exact Hs |]. split; [exact He |].
  split; [exact Hp | exact Hc].
Defined.

(** Three pages, the second of which cannot be fetched. *)
Lemma process_sitemap_isolates_page_failures_witness :
  let job' := (process_sitemap demo_job script_page2_fails 1 demo_sitemap).1.1 in
  extract_competitor_name demo_sitemap = Ok "Gunn Nissan" /\
  parse_sitemap (Some VDP_LIMIT) script_page2_fails demo_sitemap
  = (script_page2_fails, Ok [page1; page2; page3]) /\
  map r_url (results job') = [page1; page3] /\
  errors job'
  = ["Error processing " +:+ page2 +:+ ": Failed to scrape VDP " +:+ page2
     +:+ ": timed out"].
Proof.
  assert (Hc : extract_competitor_name demo_sitemap = Ok "Gunn Nissan")
    by reflexivity.
  assert (Hp : parse_sitemap (Some VDP_LIMIT) script_page2_fails demo_sitemap
               = (script_page2_fails, Ok [page1; page2; page3]))
    by (vm_compute; reflexivity).
  destruct (process_sitemap_isolates_page_failures demo_job script_page2_fails
              script_page2_fails 1 demo_sitemap "Gunn Nissan"
              [page1; page2; page3] Hc Hp) as (_ & Hr & He & _).
  split; [exact Hc |]. split; [exact Hp |].
  cbv zeta. rewrite Hr, He. split; vm_compute; reflexivity.
Defined.

(** A page that cannot be fetched leaves one error entry and the counter
    of processed pages where it was. *)
Lemma process_vdp_counts_results_only_witness :
  let job' := (process_vdp demo_job script_all_fail "Gunn Nissan" 1 1 page1).1 in
  vdp_fetch script_all_fail page1
  = (script_all_fail,
     Raise (Exception ("Failed to scrape VDP " +:+ page1 +:+ ": timed out"))) /\
  errors job'
  = [vdp_error_msg page1
       (Exception ("Failed to scrape VDP " +:+ page1 +:+ ": timed out"))] /\
  results job' = [] /\
  processed_vdps (progress job') = 0.
Proof.
  assert (Hf : vdp_fetch script_all_fail page1
               = (script_all_fail,
                  Raise (Exception ("Failed to scrape VDP " +:+ page1
                                    +:+ ": timed out"))))
    by (vm_compute; reflexivity).
  split; [exact Hf |].
  exact (proj1 (process_vdp_counts_results_only demo_job script_all_fail
                  "Gunn Nissan" 1 1 page1) _ _ Hf).
Defined.

(** C4 as stated fails: in a run that discovers one page, which fails,
    the error is recorded but the page is not counted in
    [processed_vdps], while a page that succeeds is. *)
Lemma failed_page_not_in_processed_vdps :
  let failed := run_analysis demo_job ∅ script_all_fail in
  let succeeded := run_analysis demo_job ∅ script_one_page in
  run_discovered failed = [page1] /\
  length (errors (run_job failed)) = 1 /\
  processed_vdps (progress (run_job failed)) = 0 /\
  run_discovered succeeded = [page1] /\
  processed_vdps (progress (run_job succeeded)) = 1.
Proof. vm_compute. repeat split. Qed.

(** Twelve errors: the response shows the last ten. *)
Lemma job_status_spec_witness :
  10 < length (errors demo_job_12_errors) /\
  exists body,
    job_status {["job-1" := demo_job_12_errors]} "job-1" = StatusOk body /\
    sb_total_errors body = 12 /\
    sb_errors body
    = ["e3"; "e4"; "e5"; "e6"; "e7"; "e8"; "e9"; "e10"; "e11"; "e12"].
Proof.
  split; [vm_compute; lia |].
  destruct (proj2 (job_status_spec {["job-1" := demo_job_12_errors]} "job-1")
              demo_job_12_errors (lookup_singleton_eq _ _))
    as (body & Hb & _ & _ & _ & _ & _ & Hn & _ & _).
  exists body. split; [exact Hb |].
  injection Hb as <-. split; reflexivity.
Defined.

(** The same job under two credentials. *)
Lemma job_status_hides_credential_witness :
  openai_api_key demo_job <> openai_api_key demo_job_other_key /\
  job_status {["job-1" := demo_job]} "job-1"
  = job_status {["job-1" := demo_job_other_key]} "job-1".
Proof.
  split; [discriminate |].
  apply (job_status_hides_credential _ _ _ demo_job demo_job_other_key).
  - apply lookup_singleton_eq.
  - apply lookup_singleton_eq.
  - repeat split.
Defined.

(** C7 as stated fails, twice.  For a response that is not JSON the
    output is not the all-sentinel record: the VIN and the year found in
    the text are returned.  And not every field is validated: for a JSON
    response with an empty [make] and a blank [model] the record carries
    the empty string for both, which is neither a make or a model nor
    'Not Available'. *)
Lemma extract_vehicle_data_not_all_validated :
  (json_loads "The VIN is 1N4BL4BV5RN123456 (a 2025 Altima)."
   = Raise (JSONDecodeError "Expecting value") /\
   exists v,
     (extract_vehicle_data script_prose "<html></html>" page1 None).2 = Ok v /\
     v_vin v = "1N4BL4BV5RN123456" /\
     v_year v = "2025" /\
     v <> default_vehicle_data) /\
  (json_loads (World := blank_fields_world) blank_json
   = Ok (JsonObject blank_items) /\
   blank_items !! "make" = Some (PyStr "") /\
   blank_items !! "model" = Some (PyStr "   ") /\
   exists v,
     (extract_vehicle_data (H := blank_fields_world) tt "<html></html>" page1
        None).2 = Ok v /\
     v_vin v = "1N4BL4BV5RN123456" /\
     v_make v = "" /\ v_make v <> NOT_AVAILABLE /\
     v_model v = "" /\ v_model v <> NOT_AVAILABLE /\
     v_trim v = NOT_AVAILABLE).
Proof.
  split.
  - split; [reflexivity |].
    eexists. split; [vm_compute; reflexivity |].
    split; [reflexivity |]. split; [reflexivity |]. discriminate.
  - split; [reflexivity |]. split; [reflexivity |]. split; [reflexivity |].
    eexists. split; [vm_compute; reflexivity |].
    repeat split; discriminate.
Qed.

(** A response in prose: a record is returned all the same. *)
Lemma extract_vehicle_data_degrades_witness :
  (forall w1 msg,
     chat_completion script_prose page1 None (truncate_html "<html></html>")
     <> (w1, Raise (JSONDecodeError msg))) /\
  exists v,
    extract_vehicle_data script_prose "<html></html>" page1 None
    = (script_prose, Ok v) /\
    v_make v = "Nissan" /\ v_msrp v = NOT_AVAILABLE.
Proof.
  assert (Hup : forall w1 msg,
            chat_completion script_prose page1 None (truncate_html "<html></html>")
            <> (w1, Raise (JSONDecodeError msg)))
    by (intros w1 msg; discriminate).
  split; [exact Hup |].
  destruct (extract_vehicle_data_degrades script_prose "<html></html>" page1 None
              Hup) as (w' & v & Hv & _ & _ & _ & _ & _ & Hfb & _).
  destruct (Hfb script_prose
              "The VIN is 1N4BL4BV5RN123456 (a 2025 Altima)." "Expecting value")
    as (_ & Hmk & _ & _ & Hms & _); [vm_compute; reflexivity |].
  exists v. split; [| by split].
  rewrite Hv. f_equal. vm_compute in Hv. by injection Hv as <- _.
Defined.

(** Every page fails: the export is an empty file, and it is sent. *)
Lemma run_analysis_empty_export_witness :
  let r := run_analysis demo_job ∅ script_all_fail in
  results (run_job r) = [] /\
  length (errors (run_job r)) = 1 /\
  completed (run_job r) = true /\
  csv_path (run_job r) = Some "exports/job-1.csv" /\
  run_files r !! "exports/job-1.csv" = Some [] /\
  exists name,
    download_csv {["job-1" := run_job r]} (run_files r) script_all_fail "job-1"
    = (script_all_fail, Ok (DownloadFile "exports/job-1.csv" name [])).
Proof.
  edestruct (run_analysis_empty_export demo_job ∅ ∅ script_all_fail)
    as (_ & Hf & _ & Hc & Hp & w7 & name & Hd);
    [reflexivity | reflexivity | vm_compute; reflexivity | reflexivity
    | reflexivity | reflexivity |].
  split; [vm_compute; reflexivity |]. split; [vm_compute; reflexivity |].
  split; [exact Hc |]. split; [exact Hp |]. split; [exact Hf |].
  exists name. rewrite insert_empty in Hd. rewrite Hd. f_equal.
  vm_compute in Hd. by injection Hd as <- _.
Defined.

(** A sitemap with three accepted pages and one that is not, read with no
    cap and with a cap of two. *)
Lemma parse_sitemap_limit_witness :
  let w := {| sitemap_locs := [Some page1; Some demo_sitemap; None; Some page2;
                                Some page3];
              bad_pages := []; reply := Ok None; broken_disk := false |} in
  parse_sitemap (Some 0%Z) w demo_sitemap = (w, Ok [page1; page2; page3]) /\
  parse_sitemap None w demo_sitemap = (w, Ok [page1; page2; page3]) /\
  parse_sitemap (Some 2%Z) w demo_sitemap = (w, Ok [page1; page2]).
Proof.
  intros w.
  assert (Hget : get_sitemap w demo_sitemap
                 = (w, Ok {| ns_locs := sitemap_locs w; plain_locs := [] |}))
    by reflexivity.
  destruct (parse_sitemap_limit w w demo_sitemap _ Hget) as [Hoff Hon].
  split; [| split].
  - rewrite (Hoff (Some 0%Z)) by (by right). vm_compute. reflexivity.
  - rewrite (Hoff None) by (by left). vm_compute. reflexivity.
  - destruct (Hon 2%Z) as [-> _]; [lia |]. vm_compute. reflexivity.
Defined.

(** ** The text operations on examples *)

Example lower_example : PyStr.lower "New-NISSAN/Auto_9" = "new-nissan/auto_9".
Proof. reflexivity. Qed.

Example contains_example :
  PyStr.contains "new" "a-new-b" = true /\ PyStr.contains "new" "ne-w" = false.
Proof. split; reflexivity. Qed.

Example strip_example : PyStr.strip "  a b
 " = "a b".
Proof. reflexivity. Qed.

(** The no-break space and NEL are white space for [strip]; a credential
    made of them is blank. *)
Example strip_no_break_space_example :
  PyStr.strip (String (ascii_of_nat 160) (String (ascii_of_nat 133) " a b "))
  = "a b" /\
  start_reply
    (start_analysis ∅ script_one_page
       {| gunn_nissan_url := Some demo_sitemap;
          ingram_park_url := None;
          boerne_url := None;
          champion_nb_url := None;
          req_openai_api_key := Some (String (ascii_of_nat 160) " ") |})
  = StartRejected 400 "OpenAI API key is required".
Proof. split; reflexivity. Qed.

Example re_search_example :
  PyStr.re_search (PyStr.lits "20" ++ [PyStr.Digit; PyStr.Digit]) "in 2x 2025!"
  = Some "2025".
Proof. reflexivity. Qed.

Example fence_example :
  PyStr.strip_fence_close (PyStr.strip_fence_open "```json
{}
```") = "{}".
Proof. reflexivity. Qed.

Example _is_new_nissan_vdp_examples :
  map _is_new_nissan_vdp
    [page1; "https://www.gunnnissan.com/new-nissan-specials/detail";
     "https://www.gunnnissan.com/inventory/new-2025-nissan-altima";
     "https://www.gunnnissan.com/used/nissan/detail/1"]
  = [true; false; false; false].
Proof. vm_compute. reflexivity. Qed.

Example _clean_vin_example :
  _clean_vin (PyStr "1n4bl-4bv5 rn123456") = Ok "1N4BL4BV5RN123456"
  /\ _clean_vin (PyStr "1N4BL") = Ok NOT_AVAILABLE.
Proof. split; reflexivity. Qed.

Example _clean_price_examples :
  map (_clean_price (H := scripted_world))
    [PyStr "$32,500"; PyStr "N/A"; PyStr ""; PyOther false "None";
     PyStr "call us"]
  = [Ok "32500.00"; Ok NOT_AVAILABLE; Ok NOT_AVAILABLE; Ok NOT_AVAILABLE;
     Ok NOT_AVAILABLE]
  /\ exists e, _clean_price (H := scripted_world) (PyOther true "32500") = Raise e.
Proof. split; [vm_compute; reflexivity | eexists; reflexivity]. Qed.

(** * Further properties of the scraper *)

Lemma lower_upper_char (c : ascii) :
  PyStr.lower_char (PyStr.upper_char c) = PyStr.lower_char c.
Proof. destruct c as [[] [] [] [] [] [] [] []]; reflexivity. Qed.

Lemma lower_lower_char (c : ascii) :
  PyStr.lower_char (PyStr.lower_char c) = PyStr.lower_char c.
Proof. destruct c as [[] [] [] [] [] [] [] []]; reflexivity. Qed.

Lemma lower_upper (s : string) : PyStr.lower (PyStr.upper s) = PyStr.lower s.
Proof.
  induction s as [| c s IH]; [done |].
  unfold PyStr.lower, PyStr.upper in *. simpl. by rewrite lower_upper_char, IH.
Qed.

Lemma lower_lower (s : string) : PyStr.lower (PyStr.lower s) = PyStr.lower s.
Proof.
  induction s as [| c s IH]; [done |].
  unfold PyStr.lower in *. simpl. by rewrite lower_lower_char, IH.
Qed.

(** X1: the page filter does not look at letter case: a locator, its
    upper-case form and its lower-case form get the same verdict. *)
Theorem _is_new_nissan_vdp_ignores_case (url : string) :
  _is_new_nissan_vdp (PyStr.upper url) = _is_new_nissan_vdp url /\
  _is_new_nissan_vdp (PyStr.lower url) = _is_new_nissan_vdp url.
Proof.
  unfold _is_new_nissan_vdp. by rewrite lower_upper, lower_lower.
Qed.

Lemma contains_cons (sub : string) (c : ascii) (s : string) :
  PyStr.contains sub s = true -> PyStr.contains sub (String c s) = true.
Proof. intros Hc. cbn [PyStr.contains]. rewrite Hc. apply orb_true_r. Qed.

Lemma re_search_contains (p : list PyStr.atom) (t : string) :
  (forall s m, PyStr.match_here p s = Some m -> PyStr.contains t s = true) ->
  forall s m, PyStr.re_search p s = Some m -> PyStr.contains t s = true.
Proof.
  intros Hp s. induction s as [| c s IH]; intros m; cbn [PyStr.re_search].
  - destruct (PyStr.match_here p "") as [m' |] eqn:Hm; [| done].
    intros _. by eapply Hp.
  - destruct (PyStr.match_here p (String c s)) as [m' |] eqn:Hm.
    + intros _. by eapply Hp.
    + intros Hs. apply contains_cons. by eapply IH.
Qed.

Lemma match_here_lits_prefix (a : string) (q : list PyStr.atom) (s m : string) :
  PyStr.match_here (PyStr.lits a ++ q) s = Some m -> String.prefix a s = true.
Proof.
  revert s m. induction a as [| c a IH]; intros s m; [intros _; apply prefix_nil |].
  cbn [PyStr.lits app PyStr.match_here PyStr.atom_ok].
  destruct s as [| c' s]; [done |].
  destruct (Ascii.eqb_spec c c') as [<- | _]; [| done].
  destruct (PyStr.match_here (PyStr.lits a ++ q) s) as [m' |] eqn:Hm; [| done].
  intros _. simpl. destruct (ascii_dec c c); [by eapply IH | done].
Qed.

Lemma excluded_term_rejected (term url : string) :
  In term exclude_terms ->
  PyStr.contains term (PyStr.lower url) = true ->
  _is_new_nissan_vdp url = false.
Proof.
  intros Hin Hc. unfold _is_new_nissan_vdp.
  assert (Hex : PyStr.contains_any exclude_terms (PyStr.lower url) = true).
  { apply existsb_exists. eauto. }
  rewrite Hex. apply andb_false_r.
Qed.

(** X2: the last page indicator, [/inventory/new-] followed by four
    digits, never lets a page in: a locator in which it is found holds the
    excluded term 'inventory/new' and is rejected. *)
Theorem inventory_new_indicator_is_dead (url m : string) :
  PyStr.re_search (PyStr.lits "/inventory/new-" ++ repeat PyStr.Digit 4)
                  (PyStr.lower url) = Some m ->
  _is_new_nissan_vdp url = false.
Proof.
  intros Hs. apply (excluded_term_rejected "inventory/new").
  { unfold exclude_terms. simpl. tauto. }
  revert Hs. apply re_search_contains. clear. intros s m Hm.
  apply match_here_lits_prefix in Hm.
  destruct s as [| c s]; [done |].
  apply prefix_cons in Hm as [<- Hm].
  apply contains_cons, contains_prefix.
  do 13 (destruct s as [| ? s]; [done |]; apply prefix_cons in Hm as [<- Hm]).
  vm_compute. by destruct s.
Qed.

Lemma collect_vdp_urls_negative (k : Z) (urls : list (option string)) :
  (k < 0)%Z ->
  collect_vdp_urls (Some k) urls [] = take 1 (matching_urls urls).
Proof.
  intros Hneg.
  induction urls as [| [url |] rest IH]; simpl; try done.
  destruct (negb (String.eqb url "") && _is_new_nissan_vdp url); [| done].
  assert (Hnz : (k =? 0)%Z = false) by (apply Z.eqb_neq; lia).
  rewrite Hnz. simpl.
  destruct (Z.leb_spec k (Z.of_nat 1)); [| lia].
  by rewrite take_0.
Qed.

Lemma matching_urls_nonempty (urls : list (option string)) :
  Forall (fun url => url <> "") (matching_urls urls).
Proof.
  induction urls as [| [url |] rest IH]; simpl; try done.
  destruct (String.eqb_spec url "") as [-> | Hne]; simpl; [done |].
  destruct (_is_new_nissan_vdp url); simpl; [by constructor | done].
Qed.

Lemma matching_urls_length (urls : list (option string)) :
  length (matching_urls urls) <= length urls.
Proof.
  induction urls as [| [url |] rest IH]; simpl; try lia.
  destruct (negb (String.eqb url "") && _is_new_nissan_vdp url); simpl; lia.
Qed.

Section ScraperProperties.
Context {W : Type} `{World W}.

(** X3: a negative [vdp_limit] counts as set and is reached at once:
    [parse_sitemap] then returns the first accepted page only (or none). *)
Theorem parse_sitemap_negative_limit (k : Z) (w w' : W) (sitemap_url : string)
    (doc : sitemap_doc) :
  (k < 0)%Z ->
  get_sitemap w sitemap_url = (w', Ok doc) ->
  parse_sitemap (Some k) w sitemap_url
  = (w', Ok (take 1 (matching_urls (loc_elements doc)))).
Proof.
  intros Hk Hget. unfold parse_sitemap. rewrite Hget.
  by rewrite collect_vdp_urls_negative.
Qed.

(** X4: whatever the limit, [parse_sitemap] either returns locators that
    are all non-empty and accepted by the filter, at most one for each
    [loc] element, the namespaced elements hiding the others; or it raises
    an [Exception] whose text is 'Failed to parse sitemap', the locator
    and the text of the failure. *)
Theorem parse_sitemap_result (l : option Z) (w : W) (sitemap_url : string) :
  match parse_sitemap l w sitemap_url with
  | (w', Ok urls) =>
      exists doc,
        get_sitemap w sitemap_url = (w', Ok doc) /\
        Forall (fun url => url <> "" /\ _is_new_nissan_vdp url = true) urls /\
        length urls <= length (loc_elements doc) /\
        (ns_locs doc <> [] -> length urls <= length (ns_locs doc))
  | (w', Raise e) =>
      exists e0,
        get_sitemap w sitemap_url = (w', Raise e0) /\
        e = Exception ("Failed to parse sitemap " +:+ sitemap_url +:+ ": "
                       +:+ str_of_exn e0)
  end.
Proof.
  unfold parse_sitemap.
  destruct (get_sitemap w sitemap_url) as [w' [doc | e0]]; [| eauto].
  exists doc. split; [done |].
  destruct (collect_vdp_urls_prefix l (loc_elements doc)) as [n ->].
  assert (Hlen : length (take n (matching_urls (loc_elements doc)))
                 <= length (loc_elements doc)).
  { rewrite length_take.
    pose proof (matching_urls_length (loc_elements doc)). lia. }
  split; [| split; [exact Hlen |]].
  - apply Forall_take, Forall_and.
    split; [apply matching_urls_nonempty | apply matching_urls_accepted].
  - intros Hns. unfold loc_elements in *. by destruct (ns_locs doc).
Qed.

(** X5: a page that cannot be fetched costs one error entry, which names
    the page twice (once for the handler of the runner, once for
    [scrape_vdp]) and carries the text of the failure; the language model
    is not called for it, no result is added, and the status and the page
    index are those of the page. *)
Theorem process_vdp_fetch_failure (job : AnalysisJob) (w w1 : W) (c : string)
    (n i : nat) (u : string) (e0 : exn) :
  get_page w u = (w1, Raise e0) ->
  let job' := (process_vdp job w c n i u).1 in
  (process_vdp job w c n i u).2 = w1 /\
  results job' = results job /\
  errors job'
  = errors job ++ ["Error processing " +:+ u +:+ ": Failed to scrape VDP " +:+ u
                   +:+ ": " +:+ str_of_exn e0] /\
  status job'
  = "Processing " +:+ c +:+ " - VDP " +:+ pretty i +:+ "/" +:+ pretty n /\
  current_vdp (progress job') = i /\
  processed_vdps (progress job') = processed_vdps (progress job).
Proof.
  intros Hg job'. subst job'.
  unfold process_vdp, vdp_fetch, scrape_vdp. rewrite Hg. simpl.
  repeat split.
Qed.

End ScraperProperties.

Section RetryProperties.
Context {W : Type} `{World W} {A : Type}.

Lemma retry_loop_spec (func : W -> W * res A) (max_retries : Z)
    (remaining attempt : nat) (w : W) :
  (Z.of_nat attempt + Z.of_nat remaining = max_retries)%Z ->
  0 < remaining ->
  let outs := attempts func remaining attempt w in
  1 <= length outs <= remaining /\
  (retry_loop func max_retries remaining attempt w).1.2
  = map (fun i => 2 ^ i) (seq attempt (length outs - 1)) /\
  (retry_loop func max_retries remaining attempt w).2 = retry_outcome outs.
Proof.
  revert attempt w.
  induction remaining as [| n IH]; intros attempt w Hsum Hpos; [lia |].
  cbn [attempts retry_loop].
  destruct (func w) as [w1 [a | e]]; [simpl; split; [lia | done] |].
  destruct (Z.eqb_spec (Z.of_nat attempt) (max_retries - 1)) as [Hlast | Hmore].
  - assert (n = 0) as -> by lia. simpl. split; [lia | done].
  - assert (Hn : 0 < n) by lia.
    destruct (IH (S attempt) (sleep w1 (2 ^ attempt)) ltac:(lia) Hn)
      as ([Hlo Hhi] & Hw & Hr).
    destruct (retry_loop func max_retries n (S attempt) (sleep w1 (2 ^ attempt)))
      as [[w2 waits] r].
    simpl in Hw, Hr. cbn [fst snd length].
    split; [lia |]. split.
    + rewrite Hw.
      replace (S (length (attempts func n (S attempt) (sleep w1 (2 ^ attempt)))) - 1)
        with (S (length (attempts func n (S attempt) (sleep w1 (2 ^ attempt))) - 1))
        by lia.
      done.
    + rewrite Hr. unfold retry_outcome.
      destruct (attempts func n (S attempt) (sleep w1 (2 ^ attempt)))
        as [| o outs] eqn:Ho; [simpl in Hlo; lia |].
      by rewrite last_cons_cons.
Qed.

(** X6: with a positive [max_retries], [retry_request] calls [func] at
    least once and at most [max_retries] times, stops at the first call
    that returns and returns its value, sleeps 1, 2, 4, ... seconds after
    each failed call but the last, and raises the exception of the last
    call when all of them fail; it never returns [None]. *)
Theorem retry_request_backoff (func : W -> W * res A) (max_retries : Z) (w : W) :
  (0 < max_retries)%Z ->
  let outs := attempts func (Z.to_nat max_retries) 0 w in
  let r := retry_request func max_retries w in
  1 <= length outs /\
  (Z.of_nat (length outs) <= max_retries)%Z /\
  r.1.2 = backoff (length outs - 1) /\
  r.2 = retry_outcome outs /\
  r.2 <> Ok None /\
  (forall e, r.2 = Raise e -> Z.of_nat (length outs) = max_retries).
Proof.
  intros Hpos outs r. subst outs r. unfold retry_request, backoff.
  destruct (retry_loop_spec func max_retries (Z.to_nat max_retries) 0 w
              ltac:(lia) ltac:(lia)) as ([Hlo Hhi] & Hw & Hr).
  split; [done |]. split; [lia |]. split; [done |]. split; [done |].
  rewrite Hr. clear Hw Hr.
  assert (Hgen : forall n attempt w0,
            (Z.of_nat attempt + Z.of_nat n = max_retries)%Z ->
            0 < n ->
            retry_outcome (attempts func n attempt w0) <> Ok None /\
            forall e, retry_outcome (attempts func n attempt w0) = Raise e ->
                      length (attempts func n attempt w0) = n).
  { clear. induction n as [| n IH]; intros attempt w0 Hsum Hn; [lia |].
    cbn [attempts]. destruct (func w0) as [w1 [a | e]]; [done |].
    destruct n as [| n]; [done |].
    destruct (IH (S attempt) (sleep w1 (2 ^ attempt)) ltac:(lia) ltac:(lia))
      as [Hne Hall].
    destruct (attempts func (S n) (S attempt) (sleep w1 (2 ^ attempt)))
      as [| o outs] eqn:Ho.
    - cbn [attempts] in Ho.
      by destruct (func (sleep w1 (2 ^ attempt))) as [? [? | ?]].
    - unfold retry_outcome in *. rewrite last_cons_cons. split; [done |].
      intros e' He'. simpl. f_equal. by eapply Hall. }
  destruct (Hgen (Z.to_nat max_retries) 0 w ltac:(lia) ltac:(lia)) as [Hne Hall].
  split; [done |]. intros e He. rewrite (Hall e He). lia.
Qed.

(** X7: with [max_retries] zero or negative the loop body never runs:
    [func] is not called, nothing is slept and the result is [None]. *)
Theorem retry_request_no_attempts (func : W -> W * res A) (max_retries : Z)
    (w : W) :
  (max_retries <= 0)%Z ->
  retry_request func max_retries w = (w, [], Ok None).
Proof.
  intros Hle. unfold retry_request.
  replace (Z.to_nat max_retries) with 0 by lia. done.
Qed.

End RetryProperties.

(** * Further properties of the extractor *)

Lemma upper_alnum_upper_char (c : ascii) :
  PyStr.is_upper_alnum c = true -> PyStr.upper_char c = c.
Proof. destruct c as [[] [] [] [] [] [] [] []]; (reflexivity || discriminate). Qed.

Lemma upper_lower_char (c : ascii) :
  PyStr.upper_char (PyStr.lower_char c) = PyStr.upper_char c.
Proof. destruct c as [[] [] [] [] [] [] [] []]; reflexivity. Qed.

Lemma digit_or_dot_lower_char (c : ascii) :
  PyStr.is_digit_or_dot (PyStr.lower_char c) = PyStr.is_digit_or_dot c /\
  (PyStr.is_digit_or_dot c = true -> PyStr.lower_char c = c).
Proof.
  destruct c as [[] [] [] [] [] [] [] []];
    (split; [reflexivity | (reflexivity || discriminate)]).
Qed.

Lemma upper_lower (s : string) : PyStr.upper (PyStr.lower s) = PyStr.upper s.
Proof.
  induction s as [| c s IH]; [done |].
  unfold PyStr.lower, PyStr.upper in *. simpl. by rewrite upper_lower_char, IH.
Qed.

Lemma upper_of_upper_alnum (s : string) :
  PyStr.all_chars PyStr.is_upper_alnum s = true -> PyStr.upper s = s.
Proof.
  induction s as [| c s IH]; [done |].
  cbn [PyStr.all_chars]. intros [Hc Hs]%andb_true_iff.
  unfold PyStr.upper in *. cbn [PyStr.map_chars].
  by rewrite upper_alnum_upper_char, IH.
Qed.

Lemma keep_of_all (p : ascii -> bool) (s : string) :
  PyStr.all_chars p s = true -> PyStr.keep p s = s.
Proof.
  induction s as [| c s IH]; [done |].
  cbn [PyStr.all_chars PyStr.keep]. intros [Hc Hs]%andb_true_iff.
  by rewrite Hc, IH.
Qed.

Lemma keep_keep (p : ascii -> bool) (s : string) :
  PyStr.keep p (PyStr.keep p s) = PyStr.keep p s.
Proof. apply keep_of_all, keep_all_chars. Qed.

Lemma keep_digit_or_dot_lower (s : string) :
  PyStr.keep PyStr.is_digit_or_dot (PyStr.lower s)
  = PyStr.keep PyStr.is_digit_or_dot s.
Proof.
  induction s as [| c s IH]; [done |].
  unfold PyStr.lower in *. cbn [PyStr.map_chars PyStr.keep].
  destruct (digit_or_dot_lower_char c) as [Heq Hid]. rewrite Heq.
  destruct (PyStr.is_digit_or_dot c); [by rewrite Hid, IH | done].
Qed.

Lemma lower_of_digit_or_dot (s : string) :
  PyStr.all_chars PyStr.is_digit_or_dot s = true -> PyStr.lower s = s.
Proof.
  induction s as [| c s IH]; [done |].
  cbn [PyStr.all_chars]. intros [Hc Hs]%andb_true_iff.
  unfold PyStr.lower in *. cbn [PyStr.map_chars].
  destruct (digit_or_dot_lower_char c) as [_ Hid]. by rewrite Hid, IH.
Qed.

(** X8: [_clean_vin] is idempotent and does not look at letter case:
    cleaning a cleaned VIN (or the sentinel) gives it back, and a VIN in
    lower case is cleaned to the same result. *)
Theorem _clean_vin_idempotent (vin : pyvalue) (s t : string) :
  (_clean_vin vin = Ok s -> _clean_vin (PyStr s) = Ok s) /\
  _clean_vin (PyStr (PyStr.lower t)) = _clean_vin (PyStr t).
Proof.
  split.
  - intros Hv. destruct (_clean_vin_well_formed vin s Hv) as [-> | [Hl Ha]].
    + reflexivity.
    + unfold _clean_vin. simpl.
      rewrite (upper_of_upper_alnum s Ha), (keep_of_all _ s Ha), Hl. done.
  - unfold _clean_vin. simpl. by rewrite upper_lower.
Qed.

(** X9: [_clean_year] is idempotent: cleaning its own result, a year or
    the sentinel, gives that result back. *)
Theorem _clean_year_idempotent (year : pyvalue) :
  _clean_year (PyStr (_clean_year year)) = _clean_year year.
Proof.
  destruct (_clean_year_well_formed year) as [-> | (d1 & d2 & H1 & H2 & ->)].
  - reflexivity.
  - unfold _clean_year. simpl py_str.
    change year_pattern
      with [PyStr.Lit "2"; PyStr.Lit "0"; PyStr.Digit; PyStr.Digit].
    cbn [PyStr.re_search PyStr.match_here PyStr.atom_ok].
    rewrite H1, H2. reflexivity.
Qed.

Section ExtractorEdgeCases.
Context {W : Type} `{World W}.

(** X10: of a price text only the digits and the dots count: a text and
    what is left of it after every other character is dropped are
    cleaned to the same result. *)
Theorem _clean_price_digits_only (s : string) :
  _clean_price (PyStr s)
  = _clean_price (PyStr (PyStr.keep PyStr.is_digit_or_dot s)).
Proof.
  set (k := PyStr.keep PyStr.is_digit_or_dot s).
  assert (Hk : PyStr.all_chars PyStr.is_digit_or_dot k = true)
    by apply keep_all_chars.
  assert (Hrhs : _clean_price (PyStr k)
                 = if String.eqb k "" then Ok NOT_AVAILABLE
                   else if isdigit (PyStr.keep (fun c => negb (Ascii.eqb c ".")) k)
                        then match float_of_str k with
                             | Some x => if float_pos x then Ok (format_2f x)
                                         else Ok NOT_AVAILABLE
                             | None => Ok NOT_AVAILABLE
                             end
                        else Ok NOT_AVAILABLE).
  { unfold _clean_price. simpl.
    destruct (String.eqb_spec k "") as [-> | Hne]; [done |]. simpl.
    rewrite (lower_of_digit_or_dot k Hk).
    case_bool_decide as Hin.
    - exfalso. rewrite !elem_of_cons, elem_of_nil in Hin.
      destruct Hin as [Hw | [Hw | [Hw | [Hw | []]]]];
        rewrite Hw in Hk; discriminate Hk.
    - rewrite (keep_of_all _ k Hk).
      destruct (String.eqb_spec k "") as [-> | _]; [done |]. done. }
  rewrite Hrhs. unfold _clean_price. simpl.
  destruct (String.eqb_spec s "") as [-> | Hs]; [done |]. simpl.
  case_bool_decide as Hin.
  - assert (Hempty : k = "").
    { subst k. rewrite <- keep_digit_or_dot_lower.
      rewrite !elem_of_cons, elem_of_nil in Hin.
      destruct Hin as [-> | [-> | [-> | [-> | []]]]]; reflexivity. }
    by rewrite Hempty.
  - fold k. by destruct (String.eqb_spec k "").
Qed.

Lemma str_method_ok (name : string) (f : string -> string) (v : pyvalue)
    (s : string) :
  str_method name f v = Ok s -> exists t, v = PyStr t.
Proof. destruct v; [eauto | done]. Qed.

Lemma _clean_price_ok (price : pyvalue) (s : string) :
  _clean_price price = Ok s ->
  (exists t, price = PyStr t) \/ py_truthy price = false.
Proof.
  unfold _clean_price. destruct price as [t | truthy repr]; [eauto |].
  simpl. destruct truthy; [done | auto].
Qed.

Lemma clean_data_ok_typed (data : gmap string pyvalue) (v : vehicle_data) :
  clean_data (JsonObject data) = Ok v -> ~ breaks_cleaning data.
Proof.
  unfold clean_data.
  destruct (_clean_vin (dict_get data "vin" "")) as [vin | e] eqn:Hvin; [| done].
  destruct (str_method "strip" _ (dict_get data "make" _)) as [make | e] eqn:Hmk;
    [| done].
  destruct (str_method "strip" _ (dict_get data "model" _)) as [model | e] eqn:Hmd;
    [| done].
  destruct (str_method "strip" _ (dict_get data "trim" _)) as [trim | e] eqn:Htr;
    [| done].
  destruct (_clean_price (dict_get data "msrp" "")) as [msrp | e] eqn:Hms;
    [| done].
  destruct (_clean_price (dict_get data "sale_price" "")) as [sale | e] eqn:Hsp;
    [| done].
  intros _.
  assert (Hv : exists t, dict_get data "vin" "" = PyStr t).
  { unfold _clean_vin in Hvin.
    destruct (str_method "upper" _ _) eqn:Hu; [by eapply str_method_ok | done]. }
  apply str_method_ok in Hmk, Hmd, Htr. apply _clean_price_ok in Hms, Hsp.
  unfold dict_get in *.
  intros [(key & truthy & repr & Hkey & Hget) | (key & repr & Hkey & Hget)].
  - rewrite !elem_of_cons, elem_of_nil in Hkey.
    destruct Hkey as [-> | [-> | [-> | [-> | []]]]]; rewrite Hget in *; simpl in *.
    + by destruct Hv.
    + by destruct Hmk.
    + by destruct Hmd.
    + by destruct Htr.
  - rewrite !elem_of_cons, elem_of_nil in Hkey.
    destruct Hkey as [-> | [-> | []]]; rewrite Hget in *; simpl in *.
    + by destruct Hms as [[] |].
    + by destruct Hsp as [[] |].
Qed.

(** X11: one ill-typed field discards the whole answer: when the decoded
    object holds a [vin], [make], [model] or [trim] that is not a string,
    or a price that is a number other than zero (or any other true value
    that is not a string), [extract_vehicle_data] returns the default
    record, whatever the other fields hold. *)
Theorem extract_vehicle_data_ill_typed_field (w w1 : W)
    (html_content url : string) (page_title : option string)
    (message : string) (data : gmap string pyvalue) :
  chat_completion w url page_title (truncate_html html_content)
  = (w1, Ok (Some message)) ->
  json_loads (PyStr.strip_fence_close
                (PyStr.strip_fence_open (PyStr.strip message)))
  = Ok (JsonObject data) ->
  breaks_cleaning data ->
  extract_vehicle_data w html_content url page_title
  = (w1, Ok default_vehicle_data).
Proof.
  intros Hchat Hjson Hbad.
  unfold extract_vehicle_data, extract_try. rewrite Hchat, Hjson.
  pose proof (clean_data_cases (JsonObject data)) as Hcases.
  destruct (clean_data (JsonObject data)) as [v | e] eqn:Hcd.
  - by destruct (clean_data_ok_typed data v Hcd).
  - by destruct Hcases as [msg ->].
Qed.

End ExtractorEdgeCases.

Lemma length_append (a b : string) :
  String.length (a +:+ b) = String.length a + String.length b.
Proof.
  induction a as [| c a IH]; [done |].
  rewrite append_cons. simpl. by rewrite IH.
Qed.

Lemma length_slice_to (n : nat) (s : string) :
  String.length (PyStr.slice_to n s) = min n (String.length s).
Proof.
  revert s. induction n as [| n IH]; intros [| c s]; simpl; try done.
  by rewrite IH.
Qed.

Lemma slice_to_prefix (n : nat) (s t : string) :
  String.prefix (PyStr.slice_to n s) (PyStr.slice_to n s +:+ t) = true.
Proof. apply prefix_app_same. Qed.

(** X12: the HTML that goes into the prompt is bounded: a text of up to
    15000 characters is passed as it is, a longer one is cut to its first
    15000 characters followed by the 15 characters of the truncation
    mark. *)
Theorem truncate_html_bounded (html_content : string) :
  (N.of_nat (String.length (truncate_html html_content)) <= 15015)%N /\
  ((N.of_nat (String.length html_content) <= 15000)%N ->
   truncate_html html_content = html_content) /\
  ((15000 < N.of_nat (String.length html_content))%N ->
   N.of_nat (String.length (truncate_html html_content)) = 15015%N /\
   String.prefix (PyStr.slice_to (N.to_nat 15000) html_content)
                 (truncate_html html_content) = true /\
   N.of_nat (String.length (PyStr.slice_to (N.to_nat 15000) html_content))
   = 15000%N).
Proof.
  unfold truncate_html.
  destruct (N.ltb_spec 15000 (N.of_nat (String.length html_content)))
    as [Hlong | Hshort].
  - rewrite length_append, length_slice_to.
    change (String.length "
...[truncated]") with 15.
    split; [lia |]. split; [lia |]. intros _.
    split; [lia |]. split; [apply slice_to_prefix | lia].
  - split; [lia |]. split; [done | lia].
Qed.

(** * Further properties of the application *)

Section AppProperties.
Context {W : Type} `{World W}.


(** X14: [download_csv] sends nothing for a job it should not: 404 for an
    unknown identifier and 400 for a job that is not completed or has no
    export path, whatever files exist, without reading the clock; so a job
    that [start_analysis] has just registered cannot be downloaded, even
    when a file lies at its export path. *)
Theorem download_csv_rejects (analysis_results : registry) (fs : files) (w : W)
    (id : string) :
  (analysis_results !! id = None ->
   download_csv analysis_results fs w id
   = (w, Ok (DownloadRejected 404 "Job not found"))) /\
  (forall job,
     analysis_results !! id = Some job ->
     completed job = false \/ csv_path job = None \/ csv_path job = Some "" ->
     download_csv analysis_results fs w id
     = (w, Ok (DownloadRejected 400 "Job not completed or CSV not available"))) /\
  (forall w0 data job,
     start_thread (start_analysis analysis_results w0 data) = Some job ->
     download_csv (start_registry (start_analysis analysis_results w0 data)) fs w
                  (job_id job)
     = (w, Ok (DownloadRejected 400 "Job not completed or CSV not available"))).
Proof.
  split; [| split].
  - intros Hnone. unfold download_csv. by rewrite Hnone.
  - intros job Hjob Hbad. unfold download_csv. rewrite Hjob.
    destruct Hbad as [-> | [-> | ->]]; [done | by destruct (completed job) |].
    by destruct (completed job).
  - intros w0 data job. unfold start_analysis.
    destruct (request_sitemap_urls data) as [| u us]; [done |].
    destruct (String.eqb (field (req_openai_api_key data)) ""); [done |].
    destruct (uuid4 w0) as [w1 id']. simpl. intros [= <-]. simpl.
    unfold download_csv. by rewrite lookup_insert_eq.
Qed.

Lemma extract_vehicle_data_ok_fields (w w' : W) (html_content url : string)
    (page_title : option string) (v : vehicle_data) :
  extract_vehicle_data w html_content url page_title = (w', Ok v) ->
  (v_vin v = NOT_AVAILABLE \/ well_formed_vin (v_vin v)) /\
  (v_year v = NOT_AVAILABLE \/ well_formed_year (v_year v)) /\
  (v_msrp v = NOT_AVAILABLE \/ well_formed_price (v_msrp v)) /\
  (v_sale_price v = NOT_AVAILABLE \/ well_formed_price (v_sale_price v)).
Proof.
  assert (Hdef : forall v0, v0 = default_vehicle_data ->
            (v_vin v0 = NOT_AVAILABLE \/ well_formed_vin (v_vin v0)) /\
            (v_year v0 = NOT_AVAILABLE \/ well_formed_year (v_year v0)) /\
            (v_msrp v0 = NOT_AVAILABLE \/ well_formed_price (v_msrp v0)) /\
            (v_sale_price v0 = NOT_AVAILABLE
             \/ well_formed_price (v_sale_price v0)))
    by (intros v0 ->; simpl; auto).
  unfold extract_vehicle_data, extract_try.
  destruct (chat_completion w url page_title (truncate_html html_content))
    as [w1 [[message |] | [m | m]]].
  - set (content := PyStr.strip_fence_close
                      (PyStr.strip_fence_open (PyStr.strip message))).
    destruct (json_loads content) as [doc | [m | m]].
    + pose proof (clean_data_cases doc) as Hcd.
      destruct (clean_data doc) as [v0 | e].
      * by intros [= _ <-].
      * destruct Hcd as [m ->]. intros [= _ <-]. by apply Hdef.
    + intros [= _ <-].
      destruct (_fallback_extraction_fields content)
        as (Hv & Hy & _ & _ & _ & -> & ->). auto.
    + intros [= _ <-]. by apply Hdef.
  - intros [= _ <-]. by apply Hdef.
  - done.
  - intros [= _ <-]. by apply Hdef.
Qed.

Lemma vdp_fetch_row (w w' : W) (url : string) (r : result_row) :
  _is_new_nissan_vdp url = true ->
  vdp_fetch w url = (w', Ok r) -> row_well_formed r.
Proof.
  intros Hacc. unfold vdp_fetch, scrape_vdp.
  destruct (get_page w url) as [w1 [pg | e]]; [| done].
  destruct (extract_competitor_name url) as [c | e] eqn:Hc; [| done].
  cbn [vd_html_content vd_url vd_page_title vd_competitor].
  destruct (extract_vehicle_data w1 _ _ _) as [w2 [v | e]] eqn:Hx; [| done].
  destruct (strftime_now w2 _) as [w3 d].
  intros [= _ <-]. unfold row_well_formed. simpl.
  split; [done |]. split; [done |].
  by eapply extract_vehicle_data_ok_fields.
Qed.

Lemma rows_of_outcomes_well_formed (w : W) (urls : list string) :
  Forall (fun u => _is_new_nissan_vdp u = true) urls ->
  Forall row_well_formed (rows_of (vdp_outcomes w urls)).
Proof.
  intros Hacc. revert w.
  induction Hacc as [| u rest Hu _ IH]; intros w; [constructor |].
  simpl. destruct (vdp_fetch w u) as [w1 [r | e]] eqn:Hf.
  - change (rows_of (Ok r :: vdp_outcomes (sleep w1 1) rest))
      with (r :: rows_of (vdp_outcomes (sleep w1 1) rest)).
    constructor; [by eapply vdp_fetch_row | apply IH].
  - apply IH.
Qed.

(** The rows of the pages of one source come in the order of its pages. *)
Lemma rows_of_outcomes_sublist (w : W) (urls : list string) :
  map r_url (rows_of (vdp_outcomes w urls)) `sublist_of` urls.
Proof.
  revert w. induction urls as [| u rest IH]; intros w; [done |].
  simpl. destruct (vdp_fetch w u) as [w1 [r | e]] eqn:Hf.
  - change (rows_of (Ok r :: vdp_outcomes (sleep w1 1) rest))
      with (r :: rows_of (vdp_outcomes (sleep w1 1) rest)).
    simpl. rewrite (vdp_fetch_url w w1 u r Hf). by apply sublist_skip.
  - change (rows_of (Raise e :: vdp_outcomes w1 rest))
      with (rows_of (vdp_outcomes w1 rest)).
    by apply sublist_cons.
Qed.

Lemma process_sitemap_rows (job : AnalysisJob) (w : W) (idx : nat)
    (sitemap_url : string) :
  exists rows errs,
    grows job (process_sitemap job w idx sitemap_url).1.1 rows errs /\
    map r_url rows `sublist_of` (process_sitemap job w idx sitemap_url).2 /\
    Forall row_well_formed rows.
Proof.
  destruct (extract_competitor_name sitemap_url) as [c | e] eqn:Hc.
  - destruct (parse_sitemap (Some VDP_LIMIT) w sitemap_url) as [w1 [urls | e]]
      eqn:Hp.
    + destruct (process_sitemap_pages job w w1 idx sitemap_url c urls Hc Hp)
        as (Hd & Hg & _).
      eexists _, _. split; [exact Hg |]. rewrite Hd. split.
      * apply rows_of_outcomes_sublist.
      * apply rows_of_outcomes_well_formed. by eapply parse_sitemap_accepted.
    + unfold process_sitemap. rewrite Hc, Hp. simpl.
      exists [], [sitemap_error_msg sitemap_url e]. split; [| done].
      split; simpl; rewrite ?app_nil_r; try done; lia.
  - unfold process_sitemap. rewrite Hc. simpl.
    exists [], [sitemap_error_msg sitemap_url e].
    split; [apply grows_add_error | done].
Qed.

Lemma process_sitemaps_rows (job : AnalysisJob) (w : W) (idx : nat)
    (urls : list string) :
  exists rows errs,
    grows job (process_sitemaps job w idx urls).1.1 rows errs /\
    map r_url rows `sublist_of` (process_sitemaps job w idx urls).2 /\
    Forall row_well_formed rows.
Proof.
  revert job w idx.
  induction urls as [| u rest IH]; intros job w idx; simpl.
  - exists [], []. split; [apply grows_refl | done].
  - destruct (process_sitemap_rows job w idx u) as (r1 & e1 & Hg1 & Hs1 & Hw1).
    destruct (process_sitemap job w idx u) as [[job1 w1] d1].
    destruct (IH job1 w1 (S idx)) as (r2 & e2 & Hg2 & Hs2 & Hw2).
    destruct (process_sitemaps job1 w1 (S idx) rest) as [[job2 w2] d2].
    simpl in *. exists (r1 ++ r2), (e1 ++ e2). split; [| split].
    + by eapply grows_trans.
    + rewrite map_app. by apply sublist_app.
    + by apply Forall_app.
Qed.

(** What a whole run does to a job, on every exit. *)
Lemma run_analysis_frame (job : AnalysisJob) (fs : files) (w : W) :
  exists rows errs,
    grows job
      {| job_id := job_id (run_job (run_analysis job fs w));
         sitemap_urls := sitemap_urls (run_job (run_analysis job fs w));
         openai_api_key := openai_api_key (run_job (run_analysis job fs w));
         status := status (run_job (run_analysis job fs w));
         progress := progress (run_job (run_analysis job fs w));
         results := results (run_job (run_analysis job fs w));
         errors := errors (run_job (run_analysis job fs w));
         completed := completed job;
         csv_path := csv_path job |}
      rows errs /\
    map r_url rows `sublist_of` run_discovered (run_analysis job fs w) /\
    Forall row_well_formed rows.
Proof.
  unfold run_analysis, run_try.
  destruct (new_session w) as [w1 [[] | e]]; simpl.
  2: { exists [], ["Critical error: " +:+ str_of_exn e]. split; [| done].
       split; simpl; rewrite ?app_nil_r; try done; lia. }
  destruct (new_client w1 (openai_api_key job)) as [w2 [[] | e]]; simpl.
  2: { exists [], ["Critical error: " +:+ str_of_exn e]. split; [| done].
       split; simpl; rewrite ?app_nil_r; try done; lia. }
  destruct (process_sitemaps_rows (set_status "running" job) w2 1
              (sitemap_urls job)) as (rows & errs & Hg & Hsub & Hwf).
  destruct (process_sitemaps (set_status "running" job) w2 1 (sitemap_urls job))
    as [[job1 w3] d].
  simpl in *. destruct Hg as [Hr He Hp Ht Hid Hu Hk _ _]. simpl in *.
  destruct (generate_csv fs w3 (job_id job1) (results job1))
    as [[fs' w4] [path | e]]; simpl.
  - exists rows, errs. split; [| done]. split; simpl; done.
  - exists rows, (errs ++ ["Critical error: " +:+ str_of_exn e]).
    split; [| done]. split; simpl; try done. by rewrite He, app_assoc.
Qed.

(** X15: a run only appends: whatever happens, the results and the errors
    the job had are a prefix of those it ends with, and its identifier,
    its sources, its credential and [total_competitors] are unchanged. *)
Theorem run_analysis_appends_only (job : AnalysisJob) (fs : files) (w : W) :
  let job' := run_job (run_analysis job fs w) in
  results job `prefix_of` results job' /\
  errors job `prefix_of` errors job' /\
  job_id job' = job_id job /\
  sitemap_urls job' = sitemap_urls job /\
  openai_api_key job' = openai_api_key job /\
  total_competitors (progress job') = total_competitors (progress job).
Proof.
  intros job'. subst job'.
  destruct (run_analysis_frame job fs w)
    as (rows & errs & [Hr He _ Ht Hid Hu Hk _ _] & _).
  simpl in *. rewrite Hr, He.
  repeat split; try done; by apply prefix_app_r.
Qed.

(** X16: at the end of every run of a newly created job, also a failed
    one, [processed_vdps] is the number of results, which is what the
    status query reports as [total_results]. *)
Theorem run_analysis_processed_is_results (id : string) (urls : list string)
    (key : string) (analysis_results : registry) (fs : files) (w : W) :
  let job := AnalysisJob_init id urls key in
  let job' := run_job (run_analysis job fs w) in
  processed_vdps (progress job') = length (results job') /\
  exists body,
    job_status (run_thread analysis_results fs w job).1.1 id = StatusOk body /\
    sb_total_results body = processed_vdps (sb_progress body).
Proof.
  intros job job'.
  destruct (run_analysis_frame job fs w)
    as (rows & errs & [Hr _ Hp _ _ _ _ _ _] & _).
  simpl in Hr, Hp. fold job' in Hr, Hp.
  assert (Heq : processed_vdps (progress job') = length (results job'))
    by (by rewrite Hp, Hr).
  split; [exact Heq |].
  unfold run_thread, job_status. simpl. fold job job'.
  rewrite lookup_insert_eq. eexists. split; [reflexivity |]. simpl. done.
Qed.


(** X25: every result of a run of a newly created job is for a page the
    filter accepted, carries the competitor name of its own locator, and
    has a VIN, a year, an MSRP and a sale price that are each well formed
    or 'Not Available'. *)
Theorem run_analysis_rows_well_formed (id : string) (urls : list string)
    (key : string) (fs : files) (w : W) :
  Forall row_well_formed
    (results (run_job (run_analysis (AnalysisJob_init id urls key) fs w))).
Proof.
  destruct (run_analysis_frame (AnalysisJob_init id urls key) fs w)
    as (rows & errs & [Hr _ _ _ _ _ _ _ _] & _ & Hwf).
  simpl in Hr. by rewrite Hr.
Qed.

End AppProperties.

Lemma lstrip_fixed (s : string) : PyStr.lstrip (PyStr.lstrip s) = PyStr.lstrip s.
Proof.
  induction s as [| c s IH]; [done |].
  cbn [PyStr.lstrip]. destruct (PyStr.is_space c) eqn:Hc; [done |].
  cbn [PyStr.lstrip]. by rewrite Hc.
Qed.

Lemma rstrip_fixed (s : string) : PyStr.rstrip (PyStr.rstrip s) = PyStr.rstrip s.
Proof.
  induction s as [| c s IH]; [done |].
  cbn [PyStr.rstrip]. destruct (PyStr.rstrip s) as [| c' r] eqn:Hr.
  - destruct (PyStr.is_space c) eqn:Hc; [done |].
    cbn [PyStr.rstrip]. by rewrite Hc.
  - cbn [PyStr.rstrip] in *. by rewrite IH.
Qed.

(** Stripping on the right leaves a text that does not start with white
    space as it is on the left. *)
Lemma lstrip_rstrip (s : string) :
  PyStr.lstrip s = s -> PyStr.lstrip (PyStr.rstrip s) = PyStr.rstrip s.
Proof.
  destruct s as [| c s]; [done |].
  cbn [PyStr.lstrip]. destruct (PyStr.is_space c) eqn:Hc.
  - intros Heq. exfalso.
    assert (Hlen : forall t, String.length (PyStr.lstrip t) <= String.length t).
    { clear. induction t as [| a t IH]; [done |].
      cbn [PyStr.lstrip]. destruct (PyStr.is_space a); simpl in *; lia. }
    specialize (Hlen s). rewrite Heq in Hlen. simpl in Hlen. lia.
  - intros _. cbn [PyStr.rstrip].
    destruct (PyStr.rstrip s); rewrite ?Hc; cbn [PyStr.lstrip]; by rewrite Hc.
Qed.

Lemma strip_fixed (s : string) : PyStr.strip (PyStr.strip s) = PyStr.strip s.
Proof.
  unfold PyStr.strip.
  rewrite (lstrip_rstrip (PyStr.lstrip s)) by apply lstrip_fixed.
  apply rstrip_fixed.
Qed.

Section AppEdgeCases.
Context {W : Type} `{World W}.

Lemma run_try_ok_state (job : AnalysisJob) (fs : files) (w : W)
    (r1 : run_result) :
  run_try job fs w = (r1, Ok tt) ->
  let path := "exports/" +:+ job_id job +:+ ".csv" in
  status (run_job r1) = "completed" /\
  completed (run_job r1) = true /\
  csv_path (run_job r1) = Some path /\
  run_files r1 !! path
  = Some (match results (run_job r1) with
          | [] => []
          | _ => fieldnames :: map row_of_result (results (run_job r1))
          end).
Proof.
  unfold run_try.
  destruct (new_session w) as [w1 [[] | e1]]; [| done].
  destruct (new_client w1 _) as [w2 [[] | e2]]; [| done].
  destruct (process_sitemaps_grows (set_status "running" job) w2 1
              (sitemap_urls (set_status "running" job)))
    as (rows & errs & [_ _ _ _ Hid _ _ _ _]).
  destruct (process_sitemaps _ w2 1 _) as [[job1 w3] d].
  simpl in Hid. unfold generate_csv. simpl.
  destruct (makedirs w3 "exports") as [w4 [[] | e3]]; [| done].
  destruct (open_w w4 _) as [w5 [[] | e4]]; [| done].
  destruct (results job1) as [| r rs] eqn:Hrs.
  - intros [= <-]. simpl. rewrite Hid, Hrs.
    repeat split. by rewrite lookup_insert_eq.
  - destruct (write_lines w5 _ _) as [w6 [[kept e5] |]]; [done |].
    intros [= <-]. simpl. rewrite Hid, Hrs.
    repeat split. by rewrite lookup_insert_eq.
Qed.

(** X18: what a run exports is what the download sends: after a run whose
    [try] block ends without an exception, [download_csv] answers with the
    file [exports/<job_id>.csv], named after the time of the download,
    holding the header and one line for each result of the job (nothing
    at all when there is no result). *)
Theorem run_then_download (job : AnalysisJob) (analysis_results : registry)
    (fs : files) (w w6 : W) (r1 : run_result) :
  run_try job fs w = (r1, Ok tt) ->
  let r := run_analysis job fs w in
  exists w7 stamp,
    strftime_now w6 "%Y%m%d_%H%M%S" = (w7, stamp) /\
    download_csv (run_thread analysis_results fs w job).1.1
                 (run_thread analysis_results fs w job).1.2 w6 (job_id job)
    = (w7, Ok (DownloadFile
                 ("exports/" +:+ job_id job +:+ ".csv")
                 ("nissan_pricing_analysis_" +:+ stamp +:+ ".csv")
                 (match results (run_job r) with
                  | [] => []
                  | _ => fieldnames :: map row_of_result (results (run_job r))
                  end))).
Proof.
  intros Ht r.
  destruct (run_try_ok_state job fs w r1 Ht) as (_ & Hco & Hcs & Hf).
  assert (Hr : r = r1) by (subst r; unfold run_analysis; by rewrite Ht).
  unfold run_thread. fold r. rewrite Hr. simpl.
  unfold download_csv. rewrite lookup_insert_eq, Hco, Hcs. simpl.
  destruct (strftime_now w6 "%Y%m%d_%H%M%S") as [w7 stamp].
  exists w7, stamp. split; [done |]. by rewrite Hf.
Qed.

(** X19: a run of a newly created job ends not completed only when one of
    the shared steps of that run raised: creating the session, creating
    the client, making the export directory, opening the export file or
    writing its lines; the status then tells that failure.  Failures of
    sitemaps and pages alone never leave a job uncompleted. *)
Theorem run_analysis_uncompleted_cause (id : string) (urls : list string)
    (key : string) (fs : files) (w : W) :
  let job := AnalysisJob_init id urls key in
  let job' := run_job (run_analysis job fs w) in
  let path := "exports/" +:+ id +:+ ".csv" in
  completed job' = false ->
  exists e,
    status job' = "error: " +:+ str_of_exn e /\
    ((exists w1, new_session w = (w1, Raise e)) \/
     (exists w1 w2,
        new_session w = (w1, Ok tt) /\ new_client w1 key = (w2, Raise e)) \/
     (exists w1 w2 job1 w3 d,
        new_session w = (w1, Ok tt) /\
        new_client w1 key = (w2, Ok tt) /\
        process_sitemaps (set_status "running" job) w2 1 urls = (job1, w3, d) /\
        ((exists w4, makedirs w3 "exports" = (w4, Raise e)) \/
         (exists w4 w5,
            makedirs w3 "exports" = (w4, Ok tt) /\
            open_w w4 path = (w5, Raise e)) \/
         (exists w4 w5 w6 kept,
            makedirs w3 "exports" = (w4, Ok tt) /\
            open_w w4 path = (w5, Ok tt) /\
            results job1 <> [] /\
            write_lines w5 path (fieldnames :: map row_of_result (results job1))
            = (w6, Some (kept, e)))))).
Proof.
  intros job job' path. subst job'. unfold run_analysis, run_try.
  destruct (new_session w) as [w1 [[] | e1]] eqn:Hs;
    [| simpl; intros _; eauto 6].
  change (openai_api_key (set_status "running" job)) with key.
  destruct (new_client w1 key) as [w2 [[] | e2]] eqn:Hc;
    [| simpl; intros _; exists e2; split; [done |]; right; left; eauto].
  change (sitemap_urls (set_status "running" job)) with urls.
  destruct (process_sitemaps_grows (set_status "running" job) w2 1 urls)
    as (rows & errs & [_ _ _ _ Hid _ _ _ _]).
  destruct (process_sitemaps (set_status "running" job) w2 1 urls)
    as [[job1 w3] d] eqn:Hp.
  simpl in Hid. unfold generate_csv. simpl. rewrite Hid. fold path.
  destruct (makedirs w3 "exports") as [w4 [[] | e3]] eqn:Hm.
  2: { simpl. intros _. exists e3. split; [done |]. right. right.
       exists w1, w2, job1, w3, d. repeat split; try done. left. eauto. }
  destruct (open_w w4 path) as [w5 [[] | e4]] eqn:Ho.
  2: { simpl. intros _. exists e4. split; [done |]. right. right.
       exists w1, w2, job1, w3, d. repeat split; try done.
       right. left. eauto. }
  destruct (results job1) as [| r rs] eqn:Hrs; [done |].
  destruct (write_lines w5 path _) as [w6 [[kept e5] |]] eqn:Hw; [| done].
  simpl. intros _. exists e5. split; [done |]. right. right.
  exists w1, w2, job1, w3, d. repeat split; try done.
  right. right. exists w4, w5, w6, kept. by rewrite Hrs.
Qed.

(** X20: a source whose sitemap cannot be fetched costs one error entry
    and nothing else: no page is discovered, no result is added, the entry
    names the source twice (once for the handler of the runner, once for
    [parse_sitemap]), and the source is not counted as completed. *)
Theorem process_sitemap_failure (job : AnalysisJob) (w w1 : W) (idx : nat)
    (sitemap_url c : string) (e0 : exn) :
  extract_competitor_name sitemap_url = Ok c ->
  get_sitemap w sitemap_url = (w1, Raise e0) ->
  let job' := (process_sitemap job w idx sitemap_url).1.1 in
  (process_sitemap job w idx sitemap_url).2 = [] /\
  (process_sitemap job w idx sitemap_url).1.2 = w1 /\
  results job' = results job /\
  errors job'
  = errors job ++ ["Error processing sitemap " +:+ sitemap_url
                   +:+ ": Failed to parse sitemap " +:+ sitemap_url +:+ ": "
                   +:+ str_of_exn e0] /\
  status job' = "Parsing sitemap for " +:+ c /\
  current_competitor (progress job') = c /\
  completed_competitors (progress job') = idx - 1 /\
  current_vdp (progress job') = 0 /\
  total_vdps (progress job') = 0 /\
  processed_vdps (progress job') = processed_vdps (progress job).
Proof.
  intros Hc Hg job'. subst job'.
  unfold process_sitemap, parse_sitemap. rewrite Hc, Hg. simpl.
  repeat split.
Qed.

(** X21: a submission that is accepted stores between one and four
    sources, none of them empty and none with white space around it, in
    the order of the form, and a credential that is neither; the jobs
    registered under other identifiers are not touched. *)
Theorem start_analysis_normalises (analysis_results : registry) (w : W)
    (data : start_request) (job : AnalysisJob) :
  start_thread (start_analysis analysis_results w data) = Some job ->
  sitemap_urls job
  = filter (fun url => url <> "")
      [PyStr.strip (default "" (gunn_nissan_url data));
       PyStr.strip (default "" (ingram_park_url data));
       PyStr.strip (default "" (boerne_url data));
       PyStr.strip (default "" (champion_nb_url data))] /\
  Forall (fun url => url <> "" /\ PyStr.strip url = url) (sitemap_urls job) /\
  1 <= length (sitemap_urls job) <= 4 /\
  openai_api_key job <> "" /\
  PyStr.strip (openai_api_key job) = openai_api_key job /\
  forall id', id' <> job_id job ->
    start_registry (start_analysis analysis_results w data) !! id'
    = analysis_results !! id'.
Proof.
  unfold start_analysis.
  destruct (request_sitemap_urls data) as [| u us] eqn:Hu; [done |].
  destruct (String.eqb_spec (field (req_openai_api_key data)) "") as [| Hk];
    [done |].
  destruct (uuid4 w) as [w1 id]. simpl. intros [= <-]. simpl.
  split; [by rewrite <- Hu |]. split; [| split; [| split; [done | split]]].
  - rewrite <- Hu. unfold request_sitemap_urls, field.
    apply Forall_forall. intros url [Hne Hin]%list_elem_of_filter.
    split; [done |].
    rewrite !elem_of_cons, elem_of_nil in Hin.
    destruct Hin as [-> | [-> | [-> | [-> | []]]]]; apply strip_fixed.
  - split; [lia |].
    change (S (length us)) with (length (u :: us)). rewrite <- Hu.
    unfold request_sitemap_urls. etrans; [apply length_filter |]. done.
  - apply strip_fixed.
  - intros id' Hne. by rewrite lookup_insert_ne.
Qed.

(** X22: a run that an exception escapes offers nothing to download: the
    job stays not completed, so [download_csv] answers 400 for it, also
    when the export file was written before. *)
Theorem failed_run_has_no_download (id : string) (urls : list string)
    (key : string) (analysis_results : registry) (fs : files) (w w6 : W)
    (r1 : run_result) (e : exn) :
  let job := AnalysisJob_init id urls key in
  run_try job fs w = (r1, Raise e) ->
  download_csv (run_thread analysis_results fs w job).1.1
               (run_thread analysis_results fs w job).1.2 w6 id
  = (w6, Ok (DownloadRejected 400 "Job not completed or CSV not available")).
Proof.
  intros job Ht.
  destruct (run_try_raise_state job fs w r1 e Ht) as [Hco _].
  unfold run_thread, run_analysis. rewrite Ht. simpl.
  unfold download_csv. rewrite lookup_insert_eq. simpl.
  by rewrite Hco.
Qed.

End AppEdgeCases.

(** ** The submission and the runner it starts *)

Section SubmissionProperties.
Context {W : Type} `{World W}.

(** C5, as the code has it: a request whose filtered source list is empty
    or whose credential is blank is rejected with status 400, starts no
    runner and leaves the registry as it was.  Any other request creates
    a job that is not completed, has status 'starting', no results, no
    errors and every counter at zero except [total_competitors], which is
    the number of sources; it registers the job, hands that same job to
    the runner it starts, and answers with the job's identifier.  The
    status query finds the job from the registration on, and shows what
    the runner has made of it: the state of creation only until the
    runner's first statement, after which the status is 'running', and at
    the end of the run a job with the same identifier and the same
    [total_competitors] that is either completed, with status
    'completed', or not completed, with status 'error: ...'. *)
Theorem start_analysis_spec (analysis_results : registry) (w : W)
    (data : start_request) :
  let r := start_analysis analysis_results w data in
  let urls := request_sitemap_urls data in
  let key := field (req_openai_api_key data) in
  (urls = [] \/ key = "" ->
   (exists error, start_reply r = StartRejected 400 error) /\
   start_thread r = None /\
   start_registry r = analysis_results) /\
  (urls <> [] -> key <> "" ->
   exists id,
     start_reply r = StartAccepted id "Analysis started successfully" /\
     start_thread r = Some (AnalysisJob_init id urls key) /\
     start_registry r !! id = Some (AnalysisJob_init id urls key) /\
     job_status (start_registry r) id
     = StatusOk {| sb_job_id := id;
                   sb_status := "starting";
                   sb_progress := {| current_competitor := "";
                                     total_competitors := length urls;
                                     completed_competitors := 0;
                                     current_vdp := 0;
                                     total_vdps := 0;
                                     processed_vdps := 0 |};
                   sb_completed := false;
                   sb_total_results := 0;
                   sb_total_errors := 0;
                   sb_errors := [] |} /\
     job_status (thread_first_step (start_registry r)
                   (AnalysisJob_init id urls key)) id
     = StatusOk {| sb_job_id := id;
                   sb_status := "running";
                   sb_progress := {| current_competitor := "";
                                     total_competitors := length urls;
                                     completed_competitors := 0;
                                     current_vdp := 0;
                                     total_vdps := 0;
                                     processed_vdps := 0 |};
                   sb_completed := false;
                   sb_total_results := 0;
                   sb_total_errors := 0;
                   sb_errors := [] |} /\
     forall (fs : files) (w' : W),
     exists body,
       job_status (run_thread (start_registry r) fs w'
                     (AnalysisJob_init id urls key)).1.1 id
       = StatusOk body /\
       sb_job_id body = id /\
       total_competitors (sb_progress body) = length urls /\
       sb_status body <> "starting" /\
       ((sb_completed body = true /\ sb_status body = "completed") \/
        (sb_completed body = false /\
         exists e, sb_status body = "error: " +:+ str_of_exn e))).
Proof.
  intros r urls key. subst r. unfold start_analysis.
  fold urls. fold key. split.
  - intros Hbad. destruct urls as [| u us] eqn:Hu.
    + simpl. eauto.
    + destruct Hbad as [Hnil | Hkey]; [done |].
      rewrite Hkey. simpl. eauto.
  - intros Hurls Hkey. destruct urls as [| u us] eqn:Hu; [done |].
    destruct (String.eqb_spec key "") as [-> | _]; [done |].
    destruct (uuid4 w) as [w1 id]. simpl.
    exists id. split; [done |]. split; [done |].
    split; [apply lookup_insert_eq |].
    split; [unfold job_status; by rewrite lookup_insert_eq |].
    split; [unfold job_status, thread_first_step; simpl;
            by rewrite lookup_insert_eq |].
    intros fs w'.
    set (job := AnalysisJob_init id (u :: us) key).
    destruct (run_analysis_frame job fs w')
      as (rows & errs & [_ _ _ Ht _ _ _ _ _] & _).
    simpl in Ht.
    unfold run_thread, job_status. simpl. rewrite lookup_insert_eq.
    eexists. split; [reflexivity |]. simpl.
    split; [done |]. split; [exact Ht |].
    unfold run_analysis.
    destruct (run_try job fs w') as [r1 [[] | e]] eqn:Hrun.
    + destruct (run_try_ok_state job fs w' r1 Hrun) as (Hst & Hco & _).
      rewrite Hst, Hco. split; [discriminate |]. by left.
    + destruct (run_try_raise_state job fs w' r1 e Hrun) as [Hco _].
      simpl. split; [discriminate |]. right. split; [exact Hco |]. by exists e.
Qed.

End SubmissionProperties.

(** A submission with one source and a credential. *)
Lemma start_analysis_spec_witness :
  request_sitemap_urls demo_request = [demo_sitemap] /\
  field (req_openai_api_key demo_request) = "sk-test" /\
  exists id,
    start_reply (start_analysis ∅ script_page2_fails demo_request)
    = StartAccepted id "Analysis started successfully" /\
    (exists body,
       job_status (start_registry (start_analysis ∅ script_page2_fails demo_request)) id
       = StatusOk body /\
       sb_status body = "starting" /\ sb_completed body = false /\
       sb_total_results body = 0 /\ sb_errors body = []).
Proof.
  assert (Hu : request_sitemap_urls demo_request = [demo_sitemap])
    by (vm_compute; reflexivity).
  assert (Hk : field (req_openai_api_key demo_request) = "sk-test")
    by (vm_compute; reflexivity).
  split; [exact Hu |]. split; [exact Hk |].
  destruct (proj2 (start_analysis_spec ∅ script_page2_fails demo_request))
    as (id & Hreply & _ & _ & Hst & _).
  - rewrite Hu. discriminate.
  - rewrite Hk. discriminate.
  - exists id. split; [exact Hreply |].
    eexists. split; [exact Hst |]. repeat split.
Defined.

(** C5 as stated fails: the job a valid submission creates does not have
    every progress counter at zero, [total_competitors] is the number of
    sources; and the runner that the submission starts overwrites the
    state of creation, so that the status query shows the status
    'running' after the runner's first statement and, after this run, a
    completed job with one result. *)
Lemma start_analysis_state_not_kept :
  let r := start_analysis ∅ script_one_page demo_request in
  request_sitemap_urls demo_request <> [] /\
  field (req_openai_api_key demo_request) <> "" /\
  start_reply r = StartAccepted "job-1" "Analysis started successfully" /\
  start_thread r = Some demo_job /\
  (exists body,
     job_status (start_registry r) "job-1" = StatusOk body /\
     total_competitors (sb_progress body) = 1 /\
     ~ zero_counters (sb_progress body)) /\
  (exists body,
     job_status (thread_first_step (start_registry r) demo_job) "job-1"
     = StatusOk body /\
     sb_status body = "running") /\
  (exists body,
     job_status (run_thread (start_registry r) ∅ (start_world r) demo_job).1.1
                "job-1"
     = StatusOk body /\
     sb_status body = "completed" /\
     sb_completed body = true /\
     sb_total_results body = 1 /\
     total_competitors (sb_progress body) = 1).
Proof.
  split; [vm_compute; discriminate |]. split; [vm_compute; discriminate |].
  split; [vm_compute; reflexivity |]. split; [vm_compute; reflexivity |].
  split; [| split].
  - eexists. split; [vm_compute; reflexivity |].
    split; [reflexivity |]. intros [Ht _]. discriminate Ht.
  - eexists. split; [vm_compute; reflexivity |]. reflexivity.
  - eexists. split; [vm_compute; reflexivity |]. repeat split.
Qed.


Lemma prefix_app_contains (a b s : string) :
  String.prefix (a +:+ b) s = true -> PyStr.contains b s = true.
Proof.
  revert s. induction a as [| c a IH]; intros s.
  - rewrite append_nil. apply contains_prefix.
  - rewrite append_cons. destruct s as [| c' s]; [done |].
    intros [_ Hp]%prefix_cons. by apply contains_cons, IH.
Qed.

Lemma contains_app (a b s : string) :
  PyStr.contains (a +:+ b) s = true -> PyStr.contains b s = true.
Proof.
  induction s as [| c s IH]; cbn [PyStr.contains].
  - rewrite orb_false_r. intros Hp. by apply prefix_app_contains in Hp.
  - intros [Hp | Hc]%orb_true_iff.
    + by apply prefix_app_contains in Hp.
    + by apply contains_cons, IH.
Qed.

Section NamesAndCounters.
Context {W : Type} `{World W}.

(** X23: [extract_competitor_name] decides by the host alone, the first
    known fragment in the order Gunn, Ingram Park, Boerne, Champion
    winning; the test for 'nissanboerne' adds nothing to the one for
    'boerne'; a host with no known fragment is returned as it is. *)
Theorem extract_competitor_name_table (url domain : string) :
  netloc url = Ok domain ->
  extract_competitor_name url
  = Ok (if PyStr.contains "gunnnissan" domain then "Gunn Nissan"
        else if PyStr.contains "ingrampark" domain then "Ingram Park Nissan"
        else if PyStr.contains "boerne" domain then "Nissan of Boerne"
        else if PyStr.contains "championnissan" domain
             then "Champion Nissan (New Braunfels)"
        else domain).
Proof.
  intros Hn. unfold extract_competitor_name. rewrite Hn.
  destruct (PyStr.contains "gunnnissan" domain); [done |].
  destruct (PyStr.contains "ingrampark" domain); [done |].
  destruct (PyStr.contains "boerne" domain) eqn:Hb.
  - by rewrite orb_true_r.
  - destruct (PyStr.contains "nissanboerne" domain) eqn:Hnb.
    + apply (contains_app "nissan" "boerne") in Hnb. congruence.
    + simpl. by destruct (PyStr.contains "championnissan" domain).
Qed.

Lemma process_vdps_completed_competitors (job : AnalysisJob) (w : W)
    (c : string) (n i : nat) (urls : list string) :
  completed_competitors (progress (process_vdps job w c n i urls).1)
  = completed_competitors (progress job).
Proof.
  revert job w i. induction urls as [| u rest IH]; intros job w i; [done |].
  cbn [process_vdps].
  destruct (process_vdp job w c n i u) as [job1 w1] eqn:Hp.
  rewrite IH. unfold process_vdp in Hp.
  destruct (vdp_fetch w u) as [w2 [r | e]]; by injection Hp as <- _.
Qed.

Lemma process_sitemap_completed_bound (job : AnalysisJob) (w : W) (idx : nat)
    (sitemap_url : string) :
  completed_competitors (progress (process_sitemap job w idx sitemap_url).1.1)
  <= max (completed_competitors (progress job)) idx.
Proof.
  destruct (extract_competitor_name sitemap_url) as [c | e] eqn:Hc.
  - destruct (parse_sitemap (Some VDP_LIMIT) w sitemap_url) as [w1 [urls | e]]
      eqn:Hp.
    + destruct (process_sitemap_pages job w w1 idx sitemap_url c urls Hc Hp)
        as (_ & _ & ->). lia.
    + unfold process_sitemap. rewrite Hc, Hp. simpl. lia.
  - unfold process_sitemap. rewrite Hc. simpl. lia.
Qed.

Lemma process_sitemaps_completed_bound (job : AnalysisJob) (w : W) (idx : nat)
    (urls : list string) :
  completed_competitors (progress (process_sitemaps job w idx urls).1.1)
  <= max (completed_competitors (progress job)) (idx + length urls - 1).
Proof.
  revert job w idx.
  induction urls as [| u rest IH]; intros job w idx; simpl; [lia |].
  pose proof (process_sitemap_completed_bound job w idx u) as H1.
  destruct (process_sitemap job w idx u) as [[job1 w1] d1].
  specialize (IH job1 w1 (S idx)).
  destruct (process_sitemaps job1 w1 (S idx) rest) as [[job2 w2] d2].
  simpl in *. lia.
Qed.

(** X24: at the end of every run of a newly created job the number of
    completed competitors is at most the number of competitors, which is
    the number of submitted sources. *)
Theorem run_analysis_completed_competitors_bounded (id : string)
    (urls : list string) (key : string) (fs : files) (w : W) :
  let job' := run_job (run_analysis (AnalysisJob_init id urls key) fs w) in
  completed_competitors (progress job') <= total_competitors (progress job') /\
  total_competitors (progress job') = length urls.
Proof.
  intros job'. subst job'. unfold run_analysis, run_try.
  destruct (new_session w) as [w1 [[] | e1]]; [| simpl; lia].
  destruct (new_client w1 _) as [w2 [[] | e2]]; [| simpl; lia].
  pose proof (process_sitemaps_completed_bound
                (set_status "running" (AnalysisJob_init id urls key)) w2 1
                (sitemap_urls (set_status "running" (AnalysisJob_init id urls key))))
    as Hb.
  destruct (process_sitemaps_grows
              (set_status "running" (AnalysisJob_init id urls key)) w2 1
              (sitemap_urls (set_status "running" (AnalysisJob_init id urls key))))
    as (rows & errs & [_ _ _ Ht _ _ _ _ _]).
  destruct (process_sitemaps _ w2 1 _) as [[job1 w3] d].
  simpl in Hb, Ht.
  destruct (generate_csv fs w3 _ _) as [[fs' w4] [path | e]]; simpl;
    rewrite Ht; lia.
Qed.

End NamesAndCounters.

(** * The further properties on concrete inputs *)

Lemma inventory_new_indicator_is_dead_witness :
  let url := "https://www.gunnnissan.com/Inventory/New-2025-nissan-altima" in
  PyStr.re_search (PyStr.lits "/inventory/new-" ++ repeat PyStr.Digit 4)
                  (PyStr.lower url) = Some "/inventory/new-2025" /\
  _is_new_nissan_vdp url = false.
Proof.
  intros url.
  assert (Hs : PyStr.re_search
                 (PyStr.lits "/inventory/new-" ++ repeat PyStr.Digit 4)
                 (PyStr.lower url) = Some "/inventory/new-2025")
    by (vm_compute; reflexivity).
  split; [exact Hs |].
  exact (inventory_new_indicator_is_dead url _ Hs).
Defined.

Lemma parse_sitemap_negative_limit_witness :
  parse_sitemap (Some (-1)%Z) script_page2_fails demo_sitemap
  = (script_page2_fails, Ok [page1]).
Proof.
  assert (Hget : get_sitemap script_page2_fails demo_sitemap
                 = (script_page2_fails,
                    Ok {| ns_locs := sitemap_locs script_page2_fails;
                          plain_locs := [] |}))
    by reflexivity.
  rewrite (parse_sitemap_negative_limit (-1) _ _ _ _ ltac:(lia) Hget).
  vm_compute. reflexivity.
Defined.

(** Three attempts that all time out: two sleeps, of 1 and 2 seconds, and
    the last exception is raised. *)
Lemma retry_request_backoff_witness :
  (0 < 3)%Z /\
  (retry_request always_fails 3 script_one_page).1.2 = [1; 2] /\
  (retry_request always_fails 3 script_one_page).2
  = Raise (Exception "timed out").
Proof.
  split; [lia |].
  destruct (retry_request_backoff always_fails 3 script_one_page ltac:(lia))
    as (_ & _ & Hw & Hr & _).
  rewrite Hw, Hr. split; vm_compute; reflexivity.
Defined.

Lemma retry_request_no_attempts_witness :
  (0 <= 0)%Z /\
  retry_request always_answers 0 script_one_page = (script_one_page, [], Ok None).
Proof.
  split; [lia |].
  apply (retry_request_no_attempts always_answers 0 script_one_page). lia.
Defined.

(** The price comes as a number: the VIN that was found is lost too. *)
Lemma extract_vehicle_data_ill_typed_field_witness :
  numeric_items !! "vin" = Some (PyStr "1N4BL4BV5RN123456") /\
  breaks_cleaning numeric_items /\
  extract_vehicle_data (H := faulty_world) tt "<html></html>" page1 None
  = (tt, Ok default_vehicle_data).
Proof.
  assert (Hbad : breaks_cleaning numeric_items).
  { right. exists "msrp", "32500". split; [| reflexivity].
    rewrite !elem_of_cons. auto. }
  split; [reflexivity |]. split; [exact Hbad |].
  apply (extract_vehicle_data_ill_typed_field (H := faulty_world) tt tt
           "<html></html>" page1 None numeric_json numeric_items);
    [reflexivity | | exact Hbad].
  vm_compute. reflexivity.
Defined.

(** Two results: the download holds the header and two lines. *)
Lemma run_then_download_witness :
  (run_try demo_job ∅ script_page2_fails).2 = Ok tt /\
  exists name header row1 row2,
    download_csv (run_thread ∅ ∅ script_page2_fails demo_job).1.1
                 (run_thread ∅ ∅ script_page2_fails demo_job).1.2
                 script_page2_fails "job-1"
    = (script_page2_fails,
       Ok (DownloadFile "exports/job-1.csv" name [header; row1; row2])) /\
    header = fieldnames /\
    row1 !! 1 = Some page1 /\ row2 !! 1 = Some page3.
Proof.
  assert (Ht : run_try demo_job ∅ script_page2_fails
               = ((run_try demo_job ∅ script_page2_fails).1, Ok tt))
    by (vm_compute; reflexivity).
  split; [by rewrite Ht |].
  destruct (run_then_download demo_job ∅ ∅ script_page2_fails
              script_page2_fails _ Ht) as (w7 & stamp & Hstamp & Hd).
  injection Hstamp as <- <-.
  change (job_id demo_job) with "job-1" in Hd. rewrite Hd.
  do 4 eexists. split; [vm_compute; reflexivity |].
  repeat split.
Defined.

(** The disk fills up while the export is written: that is why the job
    is not completed, and the export file is left with the header alone. *)
Lemma run_analysis_uncompleted_cause_witness :
  let r := run_analysis (H := full_disk_world) demo_job ∅ script_one_page in
  completed (run_job r) = false /\
  length (results (run_job r)) = 1 /\
  run_files r !! "exports/job-1.csv" = Some [fieldnames] /\
  status (run_job r) = "error: No space left on device" /\
  exists e, status (run_job r) = "error: " +:+ str_of_exn e.
Proof.
  intros r.
  assert (Hc : completed (run_job r) = false) by (vm_compute; reflexivity).
  split; [exact Hc |]. split; [vm_compute; reflexivity |].
  split; [vm_compute; reflexivity |]. split; [vm_compute; reflexivity |].
  destruct (run_analysis_uncompleted_cause (H := full_disk_world) "job-1"
              [demo_sitemap] "sk-test" ∅ script_one_page Hc) as (e & Hs & _).
  by exists e.
Defined.

(** The sitemap cannot be fetched. *)
Lemma process_sitemap_failure_witness :
  let job := AnalysisJob_init "job-2" [boerne_sitemap] "sk-test" in
  let job' := (process_sitemap (H := faulty_world) job tt 1 boerne_sitemap).1.1 in
  extract_competitor_name (H := faulty_world) boerne_sitemap
  = Ok "Nissan of Boerne" /\
  get_sitemap (World := faulty_world) tt boerne_sitemap
  = (tt, Raise (Exception "Connection refused")) /\
  results job' = [] /\
  errors job'
  = ["Error processing sitemap " +:+ boerne_sitemap
     +:+ ": Failed to parse sitemap " +:+ boerne_sitemap
     +:+ ": Connection refused"] /\
  completed_competitors (progress job') = 0.
Proof.
  intros job job'.
  assert (Hc : extract_competitor_name (H := faulty_world) boerne_sitemap
               = Ok "Nissan of Boerne")
    by reflexivity.
  assert (Hg : get_sitemap (World := faulty_world) tt boerne_sitemap
               = (tt, Raise (Exception "Connection refused")))
    by reflexivity.
  destruct (process_sitemap_failure (H := faulty_world) job tt tt 1
              boerne_sitemap _ _ Hc Hg)
    as (_ & _ & Hr & He & _ & _ & Hcc & _).
  split; [exact Hc |]. split; [exact Hg |].
  split; [exact Hr |]. split; [exact He | exact Hcc].
Defined.

Lemma start_analysis_normalises_witness :
  exists job,
    start_thread (start_analysis ∅ script_one_page demo_request) = Some job /\
    sitemap_urls job = [demo_sitemap] /\
    openai_api_key job = "sk-test".
Proof.
  exists demo_job.
  assert (Hs : start_thread (start_analysis ∅ script_one_page demo_request)
               = Some demo_job)
    by (vm_compute; reflexivity).
  split; [exact Hs |].
  destruct (start_analysis_normalises ∅ script_one_page demo_request demo_job Hs)
    as (Hu & _).
  split; [| reflexivity]. rewrite Hu. vm_compute. reflexivity.
Defined.

Lemma failed_run_has_no_download_witness :
  (run_try demo_job ∅ script_broken_disk).2
  = Raise (Exception "Permission denied") /\
  download_csv (run_thread ∅ ∅ script_broken_disk demo_job).1.1
               (run_thread ∅ ∅ script_broken_disk demo_job).1.2
               script_broken_disk "job-1"
  = (script_broken_disk,
     Ok (DownloadRejected 400 "Job not completed or CSV not available")).
Proof.
  assert (Ht : run_try demo_job ∅ script_broken_disk
               = ((run_try demo_job ∅ script_broken_disk).1,
                  Raise (Exception "Permission denied")))
    by (vm_compute; reflexivity).
  split; [by rewrite Ht |].
  exact (failed_run_has_no_download "job-1" [demo_sitemap] "sk-test" ∅ ∅
           script_broken_disk script_broken_disk _ _ Ht).
Defined.

Lemma extract_competitor_name_table_witness :
  netloc (World := faulty_world) boerne_sitemap = Ok "www.nissanboerne.com" /\
  extract_competitor_name (H := faulty_world) boerne_sitemap
  = Ok "Nissan of Boerne".
Proof.
  split; [reflexivity |].
  rewrite (extract_competitor_name_table (H := faulty_world) boerne_sitemap
             "www.nissanboerne.com" eq_refl).
  vm_compute. reflexivity.
Defined.

Lemma process_vdp_fetch_failure_witness :
  let job' := (process_vdp demo_job script_all_fail "Gunn Nissan" 1 1 page1).1 in
  get_page script_all_fail page1
  = (script_all_fail, Raise (Exception "timed out")) /\
  errors job'
  = ["Error processing " +:+ page1 +:+ ": Failed to scrape VDP " +:+ page1
     +:+ ": timed out"] /\
  status job' = "Processing Gunn Nissan - VDP 1/1".
Proof.
  intros job'.
  assert (Hg : get_page script_all_fail page1
               = (script_all_fail, Raise (Exception "timed out")))
    by (vm_compute; reflexivity).
  destruct (process_vdp_fetch_failure demo_job script_all_fail script_all_fail
              "Gunn Nissan" 1 1 page1 _ Hg) as (_ & _ & He & Hs & _).
  split; [exact Hg |]. split; [exact He |].
  fold job' in Hs. rewrite Hs. vm_compute. reflexivity.
Defined.

Lemma _clean_vin_idempotent_witness :
  _clean_vin (PyStr "1n4bl-4bv5 rn123456") = Ok "1N4BL4BV5RN123456" /\
  _clean_vin (PyStr "1N4BL4BV5RN123456") = Ok "1N4BL4BV5RN123456".
Proof.
  assert (Hv : _clean_vin (PyStr "1n4bl-4bv5 rn123456") = Ok "1N4BL4BV5RN123456")
    by reflexivity.
  split; [exact Hv |].
  exact (proj1 (_clean_vin_idempotent (PyStr "1n4bl-4bv5 rn123456")
                  "1N4BL4BV5RN123456" "") Hv).
Defined.

Lemma truncate_html_bounded_witness :
  (N.of_nat (String.length "<html></html>") <= 15000)%N /\
  truncate_html "<html></html>" = "<html></html>".
Proof.
  assert (Hl : (N.of_nat (String.length "<html></html>") <= 15000)%N)
    by (vm_compute; discriminate).
  split; [exact Hl |].
  exact (proj1 (proj2 (truncate_html_bounded "<html></html>")) Hl).
Defined.

Lemma download_csv_rejects_witness :
  (∅ : registry) !! "job-9" = None /\
  download_csv ∅ ∅ script_one_page "job-9"
  = (script_one_page, Ok (DownloadRejected 404 "Job not found")).
Proof.
  split; [reflexivity |].
  exact (proj1 (download_csv_rejects ∅ ∅ script_one_page "job-9")
           (lookup_empty _)).
Defined.
